(** * MPU6050 acquisition pipeline: a shallow embedding and its properties

    The development follows the two programs of the repository:

    - [serial_reader.py]: class [MPU6050Reader], which decodes one line of
      sensor text, converts raw counts to physical units, keeps a sliding
      window of recent samples and enriches every sample with rolling
      statistics, a spectrum and time-domain peaks;
    - [server/server.py]: the hub which forwards every frame to the
      connected dashboard clients and, while a recording is active, appends
      it to a CSV file.

    Python values are embedded as an inductive type, Python exceptions as an
    explicit result type, Python floats as IEEE binary64 numbers (the kernel's
    primitive floats), dictionaries as finite maps and the set of dashboard
    clients as a finite set.  Functions of third-party libraries whose
    floating-point results depend on the platform (numpy reductions, the FFT,
    libm's pow, the local-time calendar, the JSON parser) are the fields of
    the class [Platform]: every general theorem holds for all of its
    instances. *)

From Stdlib Require Import ZArith List String Ascii Floats Lia Permutation Sorted.
From Stdlib Require Uint63.
From stdpp Require Import base tactics option list gmap strings fin_maps fin_sets sorting.
Import ListNotations.

#[local] Set Warnings "-register-all,-inexact-float".
#[local] Open Scope string_scope.
#[local] Open Scope Z_scope.
#[local] Open Scope nat_scope.
#[local] Open Scope list_scope.

(** * Python runtime *)

Module Py.

(** The exceptions the modelled code can meet. *)
Inductive exn : Type :=
| TypeError | ValueError | OverflowError | ZeroDivisionError
| AttributeError | IndexError | JSONDecodeError | OSError.

(** The outcome of evaluating an expression: a value, or a raised exception. *)
Inductive result (A : Type) : Type :=
| Ok (a : A)
| Raise (e : exn).
Arguments Ok {A} a.
Arguments Raise {A} e.

#[global] Instance result_ret : MRet result := fun A a => Ok a.
#[global] Instance result_bind : MBind result := fun A B f m =>
  match m with Ok a => f a | Raise e => Raise e end.
#[global] Instance result_fmap : FMap result := fun A B f m =>
  match m with Ok a => Ok (f a) | Raise e => Raise e end.

(** [try: body except: handler] with a bare [except]. *)
Definition try_except {A} (body : result A) (handler : exn -> result A) : result A :=
  match body with Ok a => Ok a | Raise e => handler e end.

Definition raises {A} (m : result A) : bool :=
  match m with Ok _ => false | Raise _ => true end.

(** Python objects: the values JSON can carry, which are also the values the
    frames hold. *)
Inductive pyval : Type :=
| VNone
| VBool (b : bool)
| VInt (z : Z)
| VFloat (f : float)
| VStr (s : string)
| VList (l : list pyval)
| VDict (d : gmap string pyval).

#[global] Instance pyval_inhabited : Inhabited pyval := populate VNone.
#[global] Instance float_inhabited : Inhabited float := populate 0%float.

(** Truth value of an object ([if x:]). *)
Definition truthy (v : pyval) : bool :=
  match v with
  | VNone => false
  | VBool b => b
  | VInt z => negb (z =? 0)%Z
  | VFloat f => negb (PrimFloat.eqb f 0)
  | VStr s => negb (String.eqb s "")
  | VList l => negb (Nat.eqb (length l) 0)
  | VDict d => negb (Nat.eqb (size d) 0)
  end.

(** [data.get(key, dflt)]: only a dict has the method. *)
Definition py_get (data : pyval) (key : string) (dflt : pyval) : result pyval :=
  match data with
  | VDict d => Ok (default dflt (d !! key))
  | _ => Raise AttributeError
  end.

(** [l[i]] for a non-negative index. *)
Definition py_index {A} (l : list A) (i : nat) : result A :=
  match l !! i with Some x => Ok x | None => Raise IndexError end.

(** [l[-n:]]: the last [n] elements, the whole list when [n] is [0]. *)
Definition py_slice_last {A} (n : nat) (l : list A) : list A :=
  match n with
  | O => l
  | _ => drop (length l - n) l
  end.

(** ** Floats *)

(** [float(z)] as CPython computes it: rounded to nearest even, and
    [OverflowError] ("int too large to convert to float") when the rounded
    value does not fit. *)
Definition float_of_Z (z : Z) : float :=
  SF2Prim (binary_normalize prec emax z 0 false).

Definition float_of_int (z : Z) : result float :=
  let f := float_of_Z z in
  if PrimFloat.is_infinity f then Raise OverflowError else Ok f.

(** The left operand of [v / d] for a float [d], converted to a float. *)
Definition float_operand (v : pyval) : result float :=
  match v with
  | VInt z => float_of_int z
  | VBool b => Ok (if b then 1%float else 0%float)
  | VFloat f => Ok f
  | VNone | VStr _ | VList _ | VDict _ => Raise TypeError
  end.

(** [v / d] where [d] is a float. *)
Definition truediv_float (v : pyval) (d : float) : result float :=
  x ← float_operand v;
  if PrimFloat.eqb d 0 then Raise ZeroDivisionError else Ok (x / d)%float.

(** [a > b] on floats. *)
Definition float_gt (a b : float) : bool := PrimFloat.ltb b a.

(** The builtin [max] over a list of floats. *)
Definition py_max (l : list float) : result float :=
  match l with
  | [] => Raise ValueError
  | x :: xs => Ok (foldl (fun m y => if float_gt y m then y else m) x xs)
  end.

(** ** Strings *)

(** [str.isspace] on the code points below 256. *)
Definition is_space (c : ascii) : bool :=
  let n := nat_of_ascii c in
  ((9 <=? n) && (n <=? 13)) || ((28 <=? n) && (n <=? 32))
  || (n =? 133) || (n =? 160).

Fixpoint lstrip (s : string) : string :=
  match s with
  | String c rest => if is_space c then lstrip rest else s
  | EmptyString => EmptyString
  end.

Fixpoint rstrip (s : string) : string :=
  match s with
  | String c rest =>
      match rstrip rest with
      | EmptyString => if is_space c then EmptyString else String c EmptyString
      | rest' => String c rest'
      end
  | EmptyString => EmptyString
  end.

(** [s.strip()] *)
Definition strip (s : string) : string := rstrip (lstrip s).

(** [s.split(sep)] for a one-character separator. *)
Fixpoint split (sep : ascii) (s : string) : list string :=
  match s with
  | EmptyString => [EmptyString]
  | String c rest =>
      if Ascii.eqb c sep then EmptyString :: split sep rest
      else match split sep rest with
           | p :: ps => String c p :: ps
           | [] => [String c EmptyString]
           end
  end.

(** [s.startswith(p)] *)
Definition startswith (s p : string) : bool := String.prefix p s.

(** [s[:-n]] for a positive [n] *)
Definition drop_last (n : nat) (s : string) : string :=
  String.substring 0 (String.length s - n) s.

End Py.

(** * Third-party libraries *)

Module Lib.
Import Py.

(** The library functions whose results the development does not fix.  The
    comment of each field gives the Python expression it stands for. *)
Class Platform : Type := {
  (** [json.loads(s)] *)
  json_loads : string -> result pyval;
  (** [int(s)] *)
  py_int : string -> result Z;
  (** [c.isalnum()] *)
  str_isalnum : ascii -> bool;
  (** [datetime.fromtimestamp(ts / 1000).strftime(fmt)], in local time *)
  strftime_local : pyval -> string -> result string;
  (** [x ** 2] on a Python float (libm's [pow]; [OverflowError] on overflow) *)
  float_sq : float -> result float;
  (** [np.mean(l)] *)
  np_mean : list float -> float;
  (** [np.std(l)] *)
  np_std : list float -> float;
  (** [scipy.signal.windows.hamming(M)] *)
  hamming : nat -> list float;
  (** [np.abs(np.fft.rfft(a))] *)
  rfft_abs : list float -> result (list float);
  (** [np.fft.rfftfreq(n, d)] *)
  rfftfreq : nat -> float -> result (list float);
}.

(** [a * b] where one operand is an array: elementwise, a one-element operand
    being broadcast, [ValueError] when the shapes do not agree. *)
Definition np_multiply (a b : list float) : result (list float) :=
  if length a =? length b then Ok (zip_with PrimFloat.mul a b)
  else match a, b with
       | [x], _ => Ok (map (PrimFloat.mul x) b)
       | _, [y] => Ok (map (fun x => x * y)%float a)
       | _, _ => Raise ValueError
       end.

(** [np.square(l)] *)
Definition np_square (l : list float) : list float :=
  map (fun x => x * x)%float l.

(** ** [scipy.signal.find_peaks]

    [find_peaks(x, height=h)[0]] first collects the local maxima of [x] by
    comparing neighbouring samples (the first and the last sample are never
    maxima; of a flat maximum the middle sample is returned, rounded down),
    then keeps those whose value is at least [h]. *)

(** The look-ahead of the scan: from [i_ahead], the first index which is the
    last one or holds a sample different from [x[i]]. *)
Fixpoint plateau_end (x : list float) (i i_ahead fuel : nat) : nat :=
  match fuel with
  | O => i_ahead
  | S fuel' =>
      if (i_ahead <? length x - 1) && PrimFloat.eqb (x !!! i_ahead) (x !!! i)
      then plateau_end x i (S i_ahead) fuel'
      else i_ahead
  end.

(** The scan itself, from index [i]. *)
Fixpoint local_maxima_from (x : list float) (i fuel : nat) : list nat :=
  match fuel with
  | O => []
  | S fuel' =>
      if i <? length x - 1 then
        if PrimFloat.ltb (x !!! (i - 1)) (x !!! i) then
          let i_ahead := plateau_end x i (i + 1) (length x) in
          if PrimFloat.ltb (x !!! i_ahead) (x !!! i)
          then (i + (i_ahead - 1)) / 2 :: local_maxima_from x (i_ahead + 1) fuel'
          else local_maxima_from x (i + 1) fuel'
        else local_maxima_from x (i + 1) fuel'
      else []
  end.

Definition local_maxima_1d (x : list float) : list nat :=
  local_maxima_from x 1 (length x).

Definition find_peaks (x : list float) (height : float) : list nat :=
  filter (fun p => PrimFloat.leb height (x !!! p) = true) (local_maxima_1d x).

End Lib.

(** * serial_reader.py *)

Module SerialReader.
Import Py Lib.

(** The dictionary [parse_data] returns: seven fixed keys. *)
Record raw_sample : Type := {
  timestamp_ms : pyval;
  ax_raw : pyval; ay_raw : pyval; az_raw : pyval;
  gx_raw : pyval; gy_raw : pyval; gz_raw : pyval;
}.

(** The attributes of an [MPU6050Reader] which the analysis reads or writes. *)
Record MPU6050Reader : Type := {
  ACCEL_SCALE : float;
  GYRO_SCALE : float;
  buffer_size : nat;
  ax_buffer : list float;
  ay_buffer : list float;
  az_buffer : list float;
  timestamps : list pyval;
  sampling_rate : Z;
  fft_window : nat;
}.

(** [__init__] *)
Definition new_reader : MPU6050Reader := {|
  ACCEL_SCALE := 16384;
  GYRO_SCALE := 131;
  buffer_size := 256;
  ax_buffer := []; ay_buffer := []; az_buffer := []; timestamps := [];
  sampling_rate := 20;
  fft_window := 128;
|}.

Definition with_buffers (self : MPU6050Reader)
    (ax ay az : list float) (ts : list pyval) : MPU6050Reader := {|
  ACCEL_SCALE := ACCEL_SCALE self;
  GYRO_SCALE := GYRO_SCALE self;
  buffer_size := buffer_size self;
  ax_buffer := ax; ay_buffer := ay; az_buffer := az; timestamps := ts;
  sampling_rate := sampling_rate self;
  fft_window := fft_window self;
|}.

Definition convert_to_g (self : MPU6050Reader) (raw_value : pyval) : result float :=
  truediv_float raw_value (ACCEL_SCALE self).

Definition convert_to_dps (self : MPU6050Reader) (raw_value : pyval) : result float :=
  truediv_float raw_value (GYRO_SCALE self).

Section WithPlatform.
Context `{Platform}.

(** The body of the [try] block of [parse_data]; [clock] is the value of
    [int(time.time() * 1000)] at the call. *)
Definition parse_data_body (line : string) (clock : Z) : result (option raw_sample) :=
  if startswith line "{" then
    data ← json_loads line;
    t ← py_get data "timestamp_ms" (VInt clock);
    ax ← py_get data "ax" (VInt 0);
    ay ← py_get data "ay" (VInt 0);
    az ← py_get data "az" (VInt 0);
    gx ← py_get data "gx" (VInt 0);
    gy ← py_get data "gy" (VInt 0);
    gz ← py_get data "gz" (VInt 0);
    Ok (Some {| timestamp_ms := t; ax_raw := ax; ay_raw := ay; az_raw := az;
                gx_raw := gx; gy_raw := gy; gz_raw := gz |})
  else
    let parts := split "," (strip line) in
    if 7 <=? length parts then
      p0 ← py_index parts 0; t ← py_int p0;
      p1 ← py_index parts 1; ax ← py_int p1;
      p2 ← py_index parts 2; ay ← py_int p2;
      p3 ← py_index parts 3; az ← py_int p3;
      p4 ← py_index parts 4; gx ← py_int p4;
      p5 ← py_index parts 5; gy ← py_int p5;
      p6 ← py_index parts 6; gz ← py_int p6;
      Ok (Some {| timestamp_ms := VInt t;
                  ax_raw := VInt ax; ay_raw := VInt ay; az_raw := VInt az;
                  gx_raw := VInt gx; gy_raw := VInt gy; gz_raw := VInt gz |})
    else Ok None.

(** [parse_data]: whatever the body raises is swallowed and [None] returned. *)
Definition parse_data (line : string) (clock : Z) : result (option raw_sample) :=
  try_except (parse_data_body line clock) (fun _ => Ok None).

Definition compute_fft (self : MPU6050Reader) (signal_data : list float)
    : result (list float * list float) :=
  if length signal_data <? fft_window self then Ok ([], [])
  else
    let window := hamming (fft_window self) in
    windowed_data ← np_multiply (py_slice_last (fft_window self) signal_data) window;
    fft_magnitude ← rfft_abs windowed_data;
    rate ← float_operand (VInt (sampling_rate self));
    d ← (if PrimFloat.eqb rate 0 then Raise ZeroDivisionError else Ok (1 / rate)%float);
    freqs ← rfftfreq (fft_window self) d;
    Ok (freqs, fft_magnitude).

Definition compute_rms (buffer : list float) : pyval :=
  match buffer with
  | [] => VInt 0
  | _ => VFloat (PrimFloat.sqrt (np_mean (np_square buffer)))
  end.

Definition detect_peaks (buffer : list float) (threshold : float) : list nat :=
  if length buffer <? 3 then []
  else
    let mean_val := np_mean buffer in
    let std_val := np_std buffer in
    filter (fun i =>
              float_gt (buffer !!! i) (buffer !!! (i - 1))
              && float_gt (buffer !!! i) (buffer !!! (i + 1))
              && float_gt (buffer !!! i) (mean_val + threshold * std_val)%float = true)
           (seq 1 (length buffer - 2)).

(** [np.sqrt(x**2 + y**2 + z**2)] *)
Definition magnitude (x y z : float) : result float :=
  x2 ← float_sq x; y2 ← float_sq y; z2 ← float_sq z;
  Ok (PrimFloat.sqrt (x2 + y2 + z2))%float.

(** [[np.sqrt(x**2 + y**2 + z**2) for x, y, z in zip(ax, ay, az)]] *)
Definition magnitudes (self : MPU6050Reader) : result (list float) :=
  mapM (fun '(x, (y, z)) => magnitude x y z)
       (zip (ax_buffer self) (zip (ay_buffer self) (az_buffer self))).

(** The values of the dictionary literal which opens [process_data], in the
    order in which Python evaluates them. *)
Record converted : Type := {
  c_date : string; c_time : string;
  ax_g : float; ay_g : float; az_g : float;
  gx_dps : float; gy_dps : float; gz_dps : float;
}.

Definition convert (self : MPU6050Reader) (raw_data : raw_sample) : result converted :=
  d ← strftime_local (timestamp_ms raw_data) "%Y-%m-%d";
  t ← strftime_local (timestamp_ms raw_data) "%H:%M:%S.%f";
  ax ← convert_to_g self (ax_raw raw_data);
  ay ← convert_to_g self (ay_raw raw_data);
  az ← convert_to_g self (az_raw raw_data);
  gx ← convert_to_dps self (gx_raw raw_data);
  gy ← convert_to_dps self (gy_raw raw_data);
  gz ← convert_to_dps self (gz_raw raw_data);
  Ok {| c_date := d; c_time := drop_last 3 t;
        ax_g := ax; ay_g := ay; az_g := az;
        gx_dps := gx; gy_dps := gy; gz_dps := gz |}.

Definition initial_frame (raw_data : raw_sample) (c : converted) : gmap string pyval :=
  <["gz_dps" := VFloat (gz_dps c)]> (<["gy_dps" := VFloat (gy_dps c)]> (
  <["gx_dps" := VFloat (gx_dps c)]> (<["az_g" := VFloat (az_g c)]> (
  <["ay_g" := VFloat (ay_g c)]> (<["ax_g" := VFloat (ax_g c)]> (
  <["gz_raw" := gz_raw raw_data]> (<["gy_raw" := gy_raw raw_data]> (
  <["gx_raw" := gx_raw raw_data]> (<["az_raw" := az_raw raw_data]> (
  <["ay_raw" := ay_raw raw_data]> (<["ax_raw" := ax_raw raw_data]> (
  <["time" := VStr (c_time c)]> (<["date" := VStr (c_date c)]> (
  <["timestamp_ms" := timestamp_ms raw_data]> ∅)))))))))))))).

(** Lines 124-133: the sample joins the four buffers, and the oldest entry
    of each leaves when the window is over its capacity. *)
Definition push_sample (self : MPU6050Reader) (c : converted) (ts : pyval)
    : MPU6050Reader :=
  let ax := ax_buffer self ++ [ax_g c] in
  let ay := ay_buffer self ++ [ay_g c] in
  let az := az_buffer self ++ [az_g c] in
  let t := timestamps self ++ [ts] in
  if buffer_size self <? length ax
  then with_buffers self (tail ax) (tail ay) (tail az) (tail t)
  else with_buffers self ax ay az t.

(** Lines 162-167: the peaks of the spectrum. *)
Definition fft_peaks (fft_freq fft_amp : list float) : result (list pyval) :=
  top ← py_max fft_amp;
  let peak_indices := find_peaks (tail fft_amp) (top * 0.1)%float in
  mapM (fun i =>
          f ← py_index fft_freq (i + 1);
          a ← py_index fft_amp (i + 1);
          Ok (VDict (<["amp" := VFloat a]> (<["freq" := VFloat f]> ∅))))
       peak_indices.

Definition float_list (l : list float) : pyval := VList (VFloat <$> l).

(** Lines 139-146 *)
Definition add_means (self : MPU6050Reader) (processed : gmap string pyval)
    : result (gmap string pyval) :=
  match ax_buffer self with
  | [] => Ok processed
  | _ =>
      mags ← magnitudes self;
      Ok (<["mean_magnitude" := VFloat (np_mean mags)]> (
          <["mean_az" := VFloat (np_mean (az_buffer self))]> (
          <["mean_ay" := VFloat (np_mean (ay_buffer self))]> (
          <["mean_ax" := VFloat (np_mean (ax_buffer self))]> processed))))
  end.

(** Lines 148-155 *)
Definition add_rms (self : MPU6050Reader) (processed : gmap string pyval)
    : result (gmap string pyval) :=
  if 10 <=? length (ax_buffer self) then
    mags ← magnitudes self;
    Ok (<["rms_magnitude" := compute_rms mags]> (
        <["rms_az" := compute_rms (az_buffer self)]> (
        <["rms_ay" := compute_rms (ay_buffer self)]> (
        <["rms_ax" := compute_rms (ax_buffer self)]> processed))))
  else Ok processed.

(** Lines 157-167 *)
Definition add_spectrum (self : MPU6050Reader) (processed : gmap string pyval)
    : result (gmap string pyval) :=
  if fft_window self <=? length (ax_buffer self) then
    '(fft_freq, fft_amp) ← compute_fft self (ax_buffer self);
    let processed :=
      <["fft_amp" := float_list fft_amp]> (<["fft_freq" := float_list fft_freq]> processed) in
    if negb (length fft_amp =? 0) && (5 <? length fft_amp) then
      peaks ← fft_peaks fft_freq fft_amp;
      Ok (<["fft_peaks" := VList peaks]> processed)
    else Ok processed
  else Ok processed.

(** Lines 169-173 *)
Definition add_peaks (self : MPU6050Reader) (processed : gmap string pyval)
    : result (gmap string pyval) :=
  if 20 <=? length (ax_buffer self) then
    let peaks := detect_peaks (ax_buffer self) 2 in
    match peaks with
    | [] => Ok processed
    | _ =>
        values ← mapM (py_index (ax_buffer self)) (py_slice_last 3 peaks);
        Ok (<["peak_values" := float_list values]> (
            <["peaks_detected" := VBool true]> processed))
    end
  else Ok processed.

(** Lines 135-175: what follows the update of the buffers. *)
Definition analyse (self : MPU6050Reader) (processed : gmap string pyval)
    (c : converted) : result (gmap string pyval) :=
  m ← magnitude (ax_g c) (ay_g c) (az_g c);
  processed ← add_means self (<["magnitude" := VFloat m]> processed);
  processed ← add_rms self processed;
  processed ← add_spectrum self processed;
  add_peaks self processed.

(** [process_data]: the reader after the call, and the frame returned or the
    exception raised. *)
Definition process_data (self : MPU6050Reader) (raw_data : raw_sample)
    : MPU6050Reader * result (gmap string pyval) :=
  match convert self raw_data with
  | Raise e => (self, Raise e)
  | Ok c =>
      let self' := push_sample self c (timestamp_ms raw_data) in
      (self', analyse self' (initial_frame raw_data c) c)
  end.

(** A reader fed a sequence of samples, as [read_serial] does: an exception
    of [process_data] is caught by the loop, which goes on with the next line. *)
Fixpoint feed (self : MPU6050Reader) (samples : list raw_sample) : MPU6050Reader :=
  match samples with
  | [] => self
  | raw_data :: rest => feed (fst (process_data self raw_data)) rest
  end.

End WithPlatform.

End SerialReader.

(** * server/server.py *)

Module Server.
Import Py Lib.

(** A dashboard connection (a websocket object), by its identity. *)
Definition client : Type := nat.

(** One line of a CSV file: its cells. *)
Definition row : Type := list pyval.

(** The module-level state, and the files of the recordings directory. *)
Record state : Type := {
  recording : bool;
  current_session : gmap string pyval;
  (** the open file object, by the path it was opened on *)
  csv_file : option string;
  (** the writer, by the path of the file it writes to *)
  csv_writer : option string;
  ui_clients : gset client;
  last_processed : pyval;
  buffers : gmap string (list pyval);
  files : gmap string (list row);
}.

Definition RECORDINGS_DIR : string := "../recordings".

Definition initial_buffers : gmap string (list pyval) :=
  <["gz" := []]> (<["gy" := []]> (<["gx" := []]> (
  <["az" := []]> (<["ay" := []]> (<["ax" := []]> (<["timestamps" := []]> ∅)))))).

Definition initial_state : state := {|
  recording := false;
  current_session := ∅;
  csv_file := None;
  csv_writer := None;
  ui_clients := ∅;
  last_processed := VNone;
  buffers := initial_buffers;
  files := ∅;
|}.

Definition set_clients (st : state) (s : gset client) : state := {|
  recording := recording st; current_session := current_session st;
  csv_file := csv_file st; csv_writer := csv_writer st;
  ui_clients := s;
  last_processed := last_processed st; buffers := buffers st; files := files st;
|}.

Definition set_analysis (st : state) (last : pyval) (b : gmap string (list pyval))
    : state := {|
  recording := recording st; current_session := current_session st;
  csv_file := csv_file st; csv_writer := csv_writer st;
  ui_clients := ui_clients st;
  last_processed := last; buffers := b; files := files st;
|}.

Definition set_files (st : state) (f : gmap string (list row)) : state := {|
  recording := recording st; current_session := current_session st;
  csv_file := csv_file st; csv_writer := csv_writer st;
  ui_clients := ui_clients st;
  last_processed := last_processed st; buffers := buffers st; files := f;
|}.

(** ** [process_imu_data] *)

Definition max_buffer : nat := 500.

(** [b[key].append(v)] *)
Definition buffer_append (key : string) (v : pyval) (b : gmap string (list pyval))
    : gmap string (list pyval) :=
  <[key := default [] (b !! key) ++ [v]]> b.

(** [if len(b) > max_buffer: b = b[-max_buffer:]] *)
Definition limit_buffer (l : list pyval) : list pyval :=
  if max_buffer <? length l then py_slice_last max_buffer l else l.

Definition process_imu_data (st : state) (data : pyval) : result (state * pyval) :=
  t ← py_get data "timestamp_ms" (VInt 0);
  ax ← py_get data "ax_g" (VInt 0);
  ay ← py_get data "ay_g" (VInt 0);
  az ← py_get data "az_g" (VInt 0);
  gx ← py_get data "gx_dps" (VInt 0);
  gy ← py_get data "gy_dps" (VInt 0);
  gz ← py_get data "gz_dps" (VInt 0);
  let b := buffer_append "gz" gz (buffer_append "gy" gy (buffer_append "gx" gx (
           buffer_append "az" az (buffer_append "ay" ay (buffer_append "ax" ax (
           buffer_append "timestamps" t (buffers st))))))) in
  Ok (set_analysis st data (limit_buffer <$> b), data).

(** ** The recording session *)

Definition header : row :=
  [VStr "date"; VStr "timestamp"; VStr "timestamp_ms";
   VStr "ax_g"; VStr "ay_g"; VStr "az_g";
   VStr "gx_dps"; VStr "gy_dps"; VStr "gz_dps";
   VStr "magnitude"; VStr "mean_magnitude"; VStr "rms_magnitude"].

Section WithPlatform.
Context `{Platform}.

(** ["".join(c if c.isalnum() or c in "-_" else "_" for c in reading_type)] *)
Fixpoint safe_type (reading_type : string) : string :=
  match reading_type with
  | EmptyString => EmptyString
  | String c rest =>
      String (if str_isalnum c || Ascii.eqb c "-" || Ascii.eqb c "_" then c else "_"%char)
             (safe_type rest)
  end.

End WithPlatform.

(** [os.path.join(d, f)] for a directory [d] which does not end with a
    separator: an absolute [f] replaces it. *)
Definition path_join (d f : string) : string :=
  if startswith f "/" then f else d +:+ "/" +:+ f.

(** What the file system does during [/start]: [open] returns the file or
    raises.  The writes are followed only as far as they succeed: the
    header which line 91 hands to the file object is taken to reach the file
    with the [flush] of line 97, as each row does with the [flush] of line
    228, so that the file object holds no unwritten data between two
    requests and [close] has nothing left to write.  A run in which a
    [flush] raises is not among the runs of this model. *)
Inductive start_io : Type :=
| StartOk
| OpenFails.

Section WithPlatform.
Context `{Platform}.

(** [/start] for a payload with the given reading type and date; [ts] and
    [start_time] are the two renderings of the current time.  The result is
    the path of the new file. *)
Definition start_recording (st : state) (reading_type date ts start_time : string)
    (io : start_io) : state * result string :=
  let fname := date +:+ "_" +:+ safe_type reading_type +:+ "_" +:+ ts +:+ ".csv" in
  let path := path_join RECORDINGS_DIR fname in
  match io with
  | OpenFails => (st, Raise OSError)
  | StartOk =>
      ({| recording := true;
          current_session :=
            <["start_time" := VStr start_time]> (<["filename" := VStr path]> (
            <["date" := VStr date]> (<["reading_type" := VStr reading_type]> ∅)));
          csv_file := Some path; csv_writer := Some path;
          ui_clients := ui_clients st;
          last_processed := last_processed st; buffers := buffers st;
          files := <[path := [header]]> (files st) |}, Ok path)
  end.

End WithPlatform.

(** [/stop]: the result is [meta.get("filename") if meta else None].
    [csv_file.close()] changes no file: every row was flushed when it was
    written (see [start_io]), so the file object holds nothing to write. *)
Definition stop_recording (st : state) : state * pyval :=
  let meta := current_session st in
  ({| recording := false; current_session := ∅;
      csv_file := None; csv_writer := None;
      ui_clients := ui_clients st;
      last_processed := last_processed st; buffers := buffers st;
      files := files st |},
   if truthy (VDict meta) then default VNone (meta !! "filename") else VNone).

(** ** Broadcast *)

(** A change of the set of dashboard clients made by another handler. *)
Inductive membership : Type :=
| Connect (c : client)
| Disconnect (c : client).

Definition apply_membership (s : gset client) (m : membership) : gset client :=
  match m with
  | Connect c => {[c]} ∪ s
  | Disconnect c => s ∖ {[c]}
  end.

(** What happens while the handler waits in [await client.send(packet)]:
    whether the send succeeds, and which dashboard connections open or close
    in the meantime. *)
Record send_outcome : Type := {
  delivered : bool;
  meanwhile : list membership;
}.

(** The loop [for client in set(ui_clients)] over the snapshot; [log] records
    every attempted send with its outcome. *)
Fixpoint send_all (snapshot : list client) (net : client -> send_outcome)
    (clients : gset client) (dead : list client) (log : list (client * bool))
    : gset client * list client * list (client * bool) :=
  match snapshot with
  | [] => (clients, dead, log)
  | c :: rest =>
      let clients := foldl apply_membership clients (meanwhile (net c)) in
      if delivered (net c)
      then send_all rest net clients dead (log ++ [(c, true)])
      else send_all rest net clients (dead ++ [c]) (log ++ [(c, false)])
  end.

(** Lines 201-208 *)
Definition publish (clients : gset client) (net : client -> send_outcome)
    : gset client * list (client * bool) :=
  let '(clients, dead, log) := send_all (elements clients) net clients [] [] in
  (foldl (fun s d => s ∖ {[d]}) clients dead, log).

(** ** Recording a frame *)

Definition csv_row (processed_data : pyval) : result row :=
  d ← py_get processed_data "date" (VStr "");
  t ← py_get processed_data "time" (VStr "");
  ms ← py_get processed_data "timestamp_ms" (VInt 0);
  ax ← py_get processed_data "ax_g" (VInt 0);
  ay ← py_get processed_data "ay_g" (VInt 0);
  az ← py_get processed_data "az_g" (VInt 0);
  gx ← py_get processed_data "gx_dps" (VInt 0);
  gy ← py_get processed_data "gy_dps" (VInt 0);
  gz ← py_get processed_data "gz_dps" (VInt 0);
  m ← py_get processed_data "magnitude" (VInt 0);
  mm ← py_get processed_data "mean_magnitude" (VInt 0);
  rm ← py_get processed_data "rms_magnitude" (VInt 0);
  Ok [d; t; ms; ax; ay; az; gx; gy; gz; m; mm; rm].

(** Lines 211-230.  [io_ok] tells whether [writerow] accepts the row.  It
    is [false] when [writerow] raises before anything reaches the file
    object, as it does on a text the encoding of the file cannot render:
    the exception is caught at line 229 and the row is lost.  When it is
    [true] the row is written and flushed (see [start_io]). *)
Definition record_frame (st : state) (processed_data : pyval) (io_ok : bool) : state :=
  match csv_writer st with
  | Some path =>
      if recording st && truthy processed_data then
        match csv_row processed_data with
        | Ok r =>
            if io_ok
            then set_files st (<[path := default [] (files st !! path) ++ [r]]> (files st))
            else st
        | Raise _ => st
        end
      else st
  | None => st
  end.

(** Lines 187-230: one decoded message of the serial stream.  The result is
    the log of the sends attempted, or the exception which ends the handler. *)
Definition handle_frame (st : state) (data : pyval) (net : client -> send_outcome)
    (io_ok : bool) : state * result (list (client * bool)) :=
  match process_imu_data st data with
  | Raise e => (st, Raise e)
  | Ok (st, processed_data) =>
      let '(clients, log) := publish (ui_clients st) net in
      (record_frame (set_clients st clients) processed_data io_ok, Ok log)
  end.

(** ** Runs of the server *)

Inductive event : Type :=
| UIConnect (c : client)
| UIDisconnect (c : client)
| Start (reading_type date ts start_time : string) (io : start_io)
| Stop
| Frame (data : pyval) (net : client -> send_outcome) (io_ok : bool).

Section WithPlatform.
Context `{Platform}.

(** One event: the state after it and the sends it attempted. *)
Definition step (st : state) (e : event) : state * list (client * bool) :=
  match e with
  | UIConnect c => (set_clients st ({[c]} ∪ ui_clients st), [])
  | UIDisconnect c => (set_clients st (ui_clients st ∖ {[c]}), [])
  | Start reading_type date ts start_time io =>
      (fst (start_recording st reading_type date ts start_time io), [])
  | Stop => (fst (stop_recording st), [])
  | Frame data net io_ok =>
      let '(st, r) := handle_frame st data net io_ok in
      (st, match r with Ok log => log | Raise _ => [] end)
  end.

(** A sequence of events: the final state and, event by event, the sends. *)
Fixpoint run (st : state) (events : list event)
    : state * list (list (client * bool)) :=
  match events with
  | [] => (st, [])
  | e :: rest =>
      let '(st, log) := step st e in
      let '(st, logs) := run st rest in
      (st, log :: logs)
  end.

End WithPlatform.

End Server.

(** * A concrete platform

    An executable instance of [Platform], used by the closed examples only.
    Each function states the inputs on which it agrees with the library it
    stands for; the general theorems do not depend on it. *)

Module Reference.
Import Py Lib.

Definition float_of_nat (n : nat) : float := float_of_Z (Z.of_nat n).

(** [x ** 2]: the product, [OverflowError] when a finite [x] overflows. *)
Definition ref_float_sq (x : float) : result float :=
  let r := (x * x)%float in
  if PrimFloat.is_infinity r && negb (PrimFloat.is_infinity x)
  then Raise OverflowError else Ok r.

(** [np.mean]: the sum taken from left to right (numpy's order for fewer
    than eight elements), divided by the length. *)
Definition ref_np_mean (l : list float) : float :=
  (foldl PrimFloat.add 0 l / float_of_nat (length l))%float.

(** [np.std]: the root of the mean squared deviation. *)
Definition ref_np_std (l : list float) : float :=
  let m := ref_np_mean l in
  PrimFloat.sqrt (ref_np_mean (map (fun x => (x - m) * (x - m))%float l)).

(** ** Trigonometry by Taylor polynomials, for arguments in [-pi, pi] *)

Definition pi : float := 0x1.921fb54442d18p+1%float.

(** [sum_k (-1)^k x^(2k) / ((2k + s)! / s!)] for [k < n], by Horner's rule
    from the last term: [s = 0] for the cosine, [s = 1] for the sine. *)
Fixpoint taylor (x2 : float) (s : Z) (k : nat) (acc : float) : float :=
  match k with
  | O => acc
  | S k' =>
      let a := float_of_Z (2 * Z.of_nat k - 1 + s) in
      let b := float_of_Z (2 * Z.of_nat k + s) in
      taylor x2 s k' (1 - x2 / (a * b) * acc)%float
  end.

Definition approx_cos (x : float) : float := taylor (x * x) 0 16 1.
Definition approx_sin (x : float) : float := (x * taylor (x * x) 1 16 1)%float.

(** The angle [2 pi j / n], brought into [-pi, pi]. *)
Definition angle (j n : nat) : float :=
  let r := j mod n in
  let t := (2 * pi * float_of_nat r / float_of_nat n)%float in
  if n <? 2 * r then (t - 2 * pi)%float else t.

(** [hamming(M)]: [0.54 - 0.46 cos(2 pi n / (M - 1))], up to the error of
    the cosine. *)
Definition ref_hamming (M : nat) : list float :=
  match M with
  | 0 => []
  | 1 => [1%float]
  | _ => map (fun n => 0.54 - 0.46 * approx_cos (angle n (M - 1)))%float (seq 0 M)
  end.

(** [np.abs(np.fft.rfft(a))]: the discrete Fourier transform by its
    definition, up to rounding; numpy refuses an empty array. *)
Definition dft_bin (a : list float) (k : nat) : float :=
  let n := length a in
  let re := foldl PrimFloat.add 0%float
              (imap (fun j x => x * approx_cos (angle (j * k) n))%float a) in
  let im := foldl PrimFloat.add 0%float
              (imap (fun j x => x * approx_sin (angle (j * k) n))%float a) in
  PrimFloat.sqrt (re * re + im * im)%float.

Definition ref_rfft_abs (a : list float) : result (list float) :=
  match a with
  | [] => Raise ValueError
  | _ => Ok (map (dft_bin a) (seq 0 (length a / 2 + 1)))
  end.

(** [np.fft.rfftfreq(n, d)]: [k * (1.0 / (n * d))] for [k] up to [n // 2]. *)
Definition ref_rfftfreq (n : nat) (d : float) : result (list float) :=
  let nd := (float_of_nat n * d)%float in
  if PrimFloat.eqb nd 0 then Raise ZeroDivisionError
  else Ok (map (fun k => float_of_nat k * (1 / nd))%float (seq 0 (n / 2 + 1))).

(** ** [int(s)] on ASCII text *)

Definition digit_of (c : ascii) : option Z :=
  let n := nat_of_ascii c in
  if (48 <=? n) && (n <=? 57) then Some (Z.of_nat (n - 48)) else None.

(** Digits, with single underscores between them; [count] digits so far. *)
Fixpoint digits_value (s : string) (acc : Z) (after_digit : bool) (count : nat)
    : option (Z * nat) :=
  match s with
  | EmptyString => if after_digit then Some (acc, count) else None
  | String c rest =>
      match digit_of c with
      | Some d => digits_value rest (10 * acc + d)%Z true (S count)
      | None =>
          if Ascii.eqb c "_" && after_digit
          then digits_value rest acc false count
          else None
      end
  end.

Definition ref_py_int (s : string) : result Z :=
  let '(negative, body) :=
    match strip s with
    | String "-" rest => (true, rest)
    | String "+" rest => (false, rest)
    | body => (false, body)
    end in
  match digits_value body 0 false 0 with
  | Some (v, count) =>
      if 4300 <? count then Raise ValueError
      else Ok (if negative then (- v)%Z else v)
  | None => Raise ValueError
  end.

(** [c.isalnum()] on ASCII characters. *)
Definition ref_isalnum (c : ascii) : bool :=
  let n := nat_of_ascii c in
  ((48 <=? n) && (n <=? 57)) || ((65 <=? n) && (n <=? 90))
  || ((97 <=? n) && (n <=? 122)).

(** ** The calendar, in UTC *)

(** The decimal digits of [n], which is below [10 ^ fuel], before [acc]. *)
Fixpoint decimal_digits (fuel : nat) (n : Z) (acc : string) : string :=
  match fuel with
  | O => acc
  | S fuel' =>
      let acc' := String (ascii_of_nat (48 + Z.to_nat (n mod 10))) acc in
      if (n <? 10)%Z then acc' else decimal_digits fuel' (n / 10)%Z acc'
  end.

Definition decimal (n : Z) : string := decimal_digits 20 n "".

(** [n] in decimal on at least [width] characters, padded with zeros. *)
Definition padded (width : nat) (n : Z) : string :=
  let d := decimal n in
  string_of_list_ascii (repeat "0"%char (width - String.length d)) +:+ d.

(** The civil date of a day counted from 1970-01-01. *)
Definition civil_of_days (days : Z) : Z * Z * Z :=
  (let z := days + 719468 in
   let era := z / 146097 in
   let doe := z - era * 146097 in
   let yoe := (doe - doe / 1460 + doe / 36524 - doe / 146096) / 365 in
   let doy := doe - (365 * yoe + yoe / 4 - yoe / 100) in
   let mp := (5 * doy + 2) / 153 in
   let d := doy - (153 * mp + 2) / 5 + 1 in
   let m := if mp <? 10 then mp + 3 else mp - 9 in
   let y := yoe + era * 400 + (if m <=? 2 then 1 else 0) in
   (y, m, d))%Z.

(** [datetime.fromtimestamp(ts / 1000).strftime(fmt)] for the two formats of
    [process_data], an integer [ts] from 1970 to 2106 and a process whose
    local time is UTC. *)
Definition ref_strftime (ts : pyval) (fmt : string) : result string :=
  match ts with
  | VInt ms =>
      if ((0 <=? ms) && (ms <? 4294967296000))%Z then
        let secs := (ms / 1000)%Z in
        let '(y, m, d) := civil_of_days (secs / 86400) in
        let sod := (secs mod 86400)%Z in
        if String.eqb fmt "%Y-%m-%d" then
          Ok (padded 4 y +:+ "-" +:+ padded 2 m +:+ "-" +:+ padded 2 d)
        else if String.eqb fmt "%H:%M:%S.%f" then
          Ok (padded 2 (sod / 3600) +:+ ":" +:+ padded 2 (sod mod 3600 / 60) +:+ ":"
              +:+ padded 2 (sod mod 60) +:+ "." +:+ padded 6 (ms mod 1000 * 1000))
        else Raise ValueError
      else Raise OverflowError
  | VNone | VStr _ | VList _ | VDict _ => Raise TypeError
  | VBool _ | VFloat _ => Raise OverflowError
  end.

(** ** [json.loads] on flat objects

    Objects whose keys are strings without escapes and whose values are
    integers, such strings, [true], [false] or [null]. *)

Definition json_space (c : ascii) : bool :=
  let n := nat_of_ascii c in (n =? 32) || (n =? 9) || (n =? 10) || (n =? 13).

Fixpoint skip_ws (s : string) : string :=
  match s with
  | String c rest => if json_space c then skip_ws rest else s
  | EmptyString => EmptyString
  end.

Definition quote : ascii := ascii_of_nat 34.

(** After the opening quote: the text up to the closing quote, and the rest. *)
Fixpoint string_body (s : string) : option (string * string) :=
  match s with
  | EmptyString => None
  | String c rest =>
      if Ascii.eqb c quote then Some (EmptyString, rest)
      else if Ascii.eqb c "\" || (nat_of_ascii c <? 32) then None
      else '(body, rest') ← string_body rest; Some (String c body, rest')
  end.

(** The longest prefix of digits, and the rest. *)
Fixpoint span_digits (s : string) : string * string :=
  match s with
  | String c rest =>
      match digit_of c with
      | Some _ => let '(ds, rest') := span_digits rest in (String c ds, rest')
      | None => (EmptyString, s)
      end
  | EmptyString => (EmptyString, EmptyString)
  end.

Definition number_value (negative : bool) (s : string) : option (pyval * string) :=
  let '(ds, rest) := span_digits s in
  match ds, rest with
  | EmptyString, _ => None
  | String "0" (String _ _), _ => None
  | _, String "." _ | _, String "e" _ | _, String "E" _ => None
  | _, _ =>
      '(v, _) ← digits_value ds 0 false 0;
      Some (VInt (if negative then (- v)%Z else v), rest)
  end.

Definition json_value (s : string) : option (pyval * string) :=
  match s with
  | String "-" rest => number_value true rest
  | String "t" (String "r" (String "u" (String "e" rest))) => Some (VBool true, rest)
  | String "f" (String "a" (String "l" (String "s" (String "e" rest)))) =>
      Some (VBool false, rest)
  | String "n" (String "u" (String "l" (String "l" rest))) => Some (VNone, rest)
  | String c rest =>
      if Ascii.eqb c quote
      then '(body, rest') ← string_body rest; Some (VStr body, rest')
      else number_value false s
  | EmptyString => None
  end.

(** The members after the opening brace or after a comma. *)
Fixpoint json_members (fuel : nat) (s : string) (d : gmap string pyval)
    : option (gmap string pyval * string) :=
  match fuel with
  | O => None
  | S fuel' =>
      match skip_ws s with
      | String c rest =>
          if Ascii.eqb c quote then
            '(key, rest) ← string_body rest;
            match skip_ws rest with
            | String ":" rest =>
                '(v, rest) ← json_value (skip_ws rest);
                match skip_ws rest with
                | String "," rest => json_members fuel' rest (<[key := v]> d)
                | String "}" rest => Some (<[key := v]> d, rest)
                | _ => None
                end
            | _ => None
            end
          else None
      | EmptyString => None
      end
  end.

Definition ref_json_loads (s : string) : result pyval :=
  match skip_ws s with
  | String "{" rest =>
      match skip_ws rest with
      | String "}" rest' =>
          match skip_ws rest' with
          | EmptyString => Ok (VDict ∅)
          | _ => Raise JSONDecodeError
          end
      | _ =>
          match json_members (String.length s) rest ∅ with
          | Some (d, rest') =>
              match skip_ws rest' with
              | EmptyString => Ok (VDict d)
              | _ => Raise JSONDecodeError
              end
          | None => Raise JSONDecodeError
          end
      end
  | _ => Raise JSONDecodeError
  end.

#[global] Instance ref_platform : Platform := {|
  json_loads := ref_json_loads;
  py_int := ref_py_int;
  str_isalnum := ref_isalnum;
  strftime_local := ref_strftime;
  float_sq := ref_float_sq;
  np_mean := ref_np_mean;
  np_std := ref_np_std;
  hamming := ref_hamming;
  rfft_abs := ref_rfft_abs;
  rfftfreq := ref_rfftfreq;
|}.

End Reference.

(** * Notions used in the statements *)

Module Notions.
Import Py Lib SerialReader.

(** One sample of the window: what a call of [process_data] appends to the
    four buffers. *)
Record entry : Type := {
  e_ax : float; e_ay : float; e_az : float; e_ts : pyval;
}.

#[global] Instance entry_inhabited : Inhabited entry :=
  populate {| e_ax := 0; e_ay := 0; e_az := 0; e_ts := VNone |}.

(** The last [n] elements of a list. *)
Definition keep_last {A} (n : nat) (l : list A) : list A :=
  drop (length l - n) l.

(** The reader with the same configuration and empty buffers. *)
Definition empty_window (self : MPU6050Reader) : MPU6050Reader :=
  with_buffers self [] [] [] [].

(** The entries of the window, read off the four buffers index by index. *)
Definition window (self : MPU6050Reader) : list entry :=
  zip_with (fun x '(y, (z, t)) => {| e_ax := x; e_ay := y; e_az := z; e_ts := t |})
    (ax_buffer self) (zip (ay_buffer self) (zip (az_buffer self) (timestamps self))).

Section WithPlatform.
Context `{Platform}.

(** The entry a call pushes: none when the conversion of the sample raises,
    which happens before the buffers are touched. *)
Definition pushed_entry (self : MPU6050Reader) (raw_data : raw_sample) : option entry :=
  match convert self raw_data with
  | Ok c => Some {| e_ax := ax_g c; e_ay := ay_g c; e_az := az_g c;
                    e_ts := timestamp_ms raw_data |}
  | Raise _ => None
  end.

(** The entries pushed by a sequence of calls, in the order of arrival. *)
Definition pushed (self : MPU6050Reader) (samples : list raw_sample) : list entry :=
  omap (pushed_entry self) samples.

End WithPlatform.

End Notions.

(** * Properties *)

Import Py Lib SerialReader Server Notions.

(** ** The sliding window *)

Section Window.
Context `{Platform}.

(** The buffers of [self] are the four columns of [w]. *)
Definition columns (self : MPU6050Reader) (w : list entry) : Prop :=
  ax_buffer self = e_ax <$> w /\ ay_buffer self = e_ay <$> w
  /\ az_buffer self = e_az <$> w /\ timestamps self = e_ts <$> w.

Lemma keep_last_length {A} (n : nat) (l : list A) :
  length (keep_last n l) = min n (length l).
Proof. unfold keep_last. rewrite length_drop. lia. Qed.

Lemma keep_last_all {A} (n : nat) (l : list A) :
  length l <= n -> keep_last n l = l.
Proof.
  intros Hn. unfold keep_last.
  replace (length l - n) with 0 by lia. reflexivity.
Qed.

Lemma keep_last_app {A} (n : nat) (l r : list A) :
  keep_last n (keep_last n l ++ r) = keep_last n (l ++ r).
Proof.
  destruct (decide (length l <= n)) as [Hle | Hgt].
  - by rewrite (keep_last_all n l).
  - unfold keep_last at 1 3. rewrite !length_app, keep_last_length.
    unfold keep_last.
    replace (n `min` length l + length r - n) with (length r) by lia.
    replace (length l + length r - n) with ((length l - n) + length r) by lia.
    rewrite <- drop_drop.
    f_equal. rewrite drop_app_le by lia. reflexivity.
Qed.

Lemma keep_last_snoc {A} (n : nat) (l : list A) (x : A) :
  length l <= n ->
  keep_last n (l ++ [x]) = if n <? length (l ++ [x]) then tail (l ++ [x]) else l ++ [x].
Proof.
  intros Hn. unfold keep_last. rewrite length_app. simpl.
  destruct (Nat.ltb_spec n (length l + 1)).
  - replace (length l + 1 - n) with 1 by lia. by destruct l.
  - replace (length l + 1 - n) with 0 by lia. reflexivity.
Qed.

Lemma fmap_tail {A B} (f : A -> B) (l : list A) : f <$> tail l = tail (f <$> l).
Proof. by destruct l. Qed.

Lemma columns_lengths self w :
  columns self w ->
  length (ax_buffer self) = length w /\ length (ay_buffer self) = length w
  /\ length (az_buffer self) = length w /\ length (timestamps self) = length w.
Proof. intros (-> & -> & -> & ->). by rewrite !length_fmap. Qed.

(** Lines 124-133 keep the four buffers in step. *)
Lemma push_sample_columns self w c ts :
  columns self w -> length w <= buffer_size self ->
  columns (push_sample self c ts)
    (keep_last (buffer_size self)
       (w ++ [{| e_ax := ax_g c; e_ay := ay_g c; e_az := az_g c; e_ts := ts |}])).
Proof.
  intros (Hx & Hy & Hz & Ht) Hn.
  rewrite keep_last_snoc by done.
  unfold push_sample, columns.
  rewrite Hx, Hy, Hz, Ht, !length_app, !length_fmap. simpl.
  destruct (buffer_size self <? length w + 1); simpl;
    rewrite ?fmap_tail, !fmap_app; done.
Qed.

Lemma push_sample_config self c ts :
  buffer_size (push_sample self c ts) = buffer_size self
  /\ ACCEL_SCALE (push_sample self c ts) = ACCEL_SCALE self
  /\ GYRO_SCALE (push_sample self c ts) = GYRO_SCALE self.
Proof. unfold push_sample. by case_match. Qed.

Lemma process_data_config self raw_data :
  buffer_size (process_data self raw_data).1 = buffer_size self
  /\ ACCEL_SCALE (process_data self raw_data).1 = ACCEL_SCALE self
  /\ GYRO_SCALE (process_data self raw_data).1 = GYRO_SCALE self.
Proof.
  unfold process_data. destruct (convert self raw_data); simpl; [|done].
  apply push_sample_config.
Qed.

Lemma convert_config self self' raw_data :
  ACCEL_SCALE self' = ACCEL_SCALE self -> GYRO_SCALE self' = GYRO_SCALE self ->
  convert self' raw_data = convert self raw_data.
Proof.
  intros Ha Hg. unfold convert, convert_to_g, convert_to_dps. by rewrite Ha, Hg.
Qed.

(** One call, whether it returns or raises. *)
Lemma process_data_columns self w raw_data :
  columns self w -> length w <= buffer_size self ->
  columns (process_data self raw_data).1
    (keep_last (buffer_size self) (w ++ option_list (pushed_entry self raw_data))).
Proof.
  intros Hc Hn. unfold process_data, pushed_entry.
  destruct (convert self raw_data) as [c|e]; simpl.
  - by apply push_sample_columns.
  - rewrite app_nil_r, keep_last_all; done.
Qed.

Lemma feed_columns self w samples :
  columns self w -> length w <= buffer_size self ->
  columns (feed self samples) (keep_last (buffer_size self) (w ++ pushed self samples)).
Proof.
  revert self w. induction samples as [|raw_data rest IH]; intros self w Hc Hn.
  - simpl. unfold pushed. simpl. rewrite app_nil_r, keep_last_all; done.
  - simpl.
    destruct (process_data_config self raw_data) as (Hb & Ha & Hg).
    pose proof (process_data_columns self w raw_data Hc Hn) as Hstep.
    apply IH in Hstep; [|rewrite Hb, keep_last_length; lia].
    rewrite Hb, keep_last_app in Hstep.
    assert (pushed (process_data self raw_data).1 rest = pushed self rest) as Hsame.
    { clear -Ha Hg. unfold pushed. induction rest as [|r rest IH]; csimpl; [done|].
      rewrite IH. unfold pushed_entry.
      by rewrite (convert_config self) by done. }
    rewrite Hsame, <- app_assoc in Hstep.
    unfold pushed in *. csimpl.
    by destruct (pushed_entry self raw_data).
Qed.

End Window.

Section WindowClaims.
Context `{Platform}.

Lemma empty_window_columns self : columns (empty_window self) [].
Proof. done. Qed.

Lemma pushed_empty_window self samples :
  pushed (empty_window self) samples = pushed self samples.
Proof.
  unfold pushed. induction samples as [|r rest IH]; csimpl; [done|].
  rewrite IH. unfold pushed_entry. by rewrite (convert_config self).
Qed.

(** The window after any sequence of calls on a reader whose buffers start
    empty: the last [buffer_size] entries pushed. *)
Lemma feed_empty_window self samples :
  columns (feed (empty_window self) samples)
    (keep_last (buffer_size self) (pushed self samples)).
Proof.
  pose proof (feed_columns (empty_window self) [] samples
                (empty_window_columns self)) as Hc.
  simpl in Hc. rewrite pushed_empty_window in Hc. apply Hc. lia.
Qed.

(** C1: for every sequence of samples fed to a reader whose buffers start
    empty, none of the four buffers ever holds more than [buffer_size]
    entries (256 for a reader built by [__init__]), and each holds exactly
    the last [buffer_size] values pushed, in the order of arrival: once
    [buffer_size + k] samples were pushed, the first [k] are gone. *)
Theorem sliding_window_keeps_last_pushed (self : MPU6050Reader)
    (samples : list raw_sample) :
  let self' := feed (empty_window self) samples in
  let kept := keep_last (buffer_size self) (pushed self samples) in
  buffer_size new_reader = 256
  /\ length (ax_buffer self') <= buffer_size self
  /\ length (ay_buffer self') <= buffer_size self
  /\ length (az_buffer self') <= buffer_size self
  /\ length (timestamps self') <= buffer_size self
  /\ ax_buffer self' = e_ax <$> kept
  /\ ay_buffer self' = e_ay <$> kept
  /\ az_buffer self' = e_az <$> kept
  /\ timestamps self' = e_ts <$> kept
  /\ forall k, length (pushed self samples) = buffer_size self + k ->
       kept = drop k (pushed self samples).
Proof.
  intros self' kept.
  pose proof (feed_empty_window self samples) as Hc.
  destruct (columns_lengths _ _ Hc) as (Lx & Ly & Lz & Lt).
  destruct Hc as (Hx & Hy & Hz & Ht).
  fold self' in Lx, Ly, Lz, Lt, Hx, Hy, Hz, Ht.
  fold kept in Lx, Ly, Lz, Lt, Hx, Hy, Hz, Ht.
  assert (length kept <= buffer_size self) as Hk.
  { unfold kept. rewrite keep_last_length. lia. }
  split; [done|].
  repeat split; try lia; try done.
  intros k Hlen. unfold kept, keep_last. f_equal. lia.
Qed.

(** C10: after every call of [process_data], returning or raising, on a
    reader whose buffers start empty, the four buffers have the same length,
    at most [buffer_size], and the entries at one index are those of one
    pushed sample; so the zipped computations pair values of the same
    sample. *)
Theorem buffers_stay_aligned (self : MPU6050Reader) (samples : list raw_sample) :
  let self' := feed (empty_window self) samples in
  let p := pushed self samples in
  let n := length (ax_buffer self') in
  length (ay_buffer self') = n
  /\ length (az_buffer self') = n
  /\ length (timestamps self') = n
  /\ n <= buffer_size self
  /\ (forall i, i < n ->
        p !! (length p - n + i)
        = Some {| e_ax := ax_buffer self' !!! i; e_ay := ay_buffer self' !!! i;
                  e_az := az_buffer self' !!! i; e_ts := timestamps self' !!! i |})
  /\ zip (ax_buffer self') (zip (ay_buffer self') (az_buffer self'))
     = (fun e => (e_ax e, (e_ay e, e_az e))) <$> keep_last (buffer_size self) p
  /\ magnitudes self'
     = mapM (fun e => magnitude (e_ax e) (e_ay e) (e_az e))
            (keep_last (buffer_size self) p).
Proof.
  intros self' p n.
  pose proof (feed_empty_window self samples) as Hc.
  destruct (columns_lengths _ _ Hc) as (Lx & Ly & Lz & Lt).
  destruct Hc as (Hx & Hy & Hz & Ht).
  fold self' in Lx, Ly, Lz, Lt, Hx, Hy, Hz, Ht.
  fold p in Lx, Ly, Lz, Lt, Hx, Hy, Hz, Ht.
  set (kept := keep_last (buffer_size self) p) in *.
  assert (length kept = min (buffer_size self) (length p)) as Hk.
  { unfold kept. apply keep_last_length. }
  assert (zip (ax_buffer self') (zip (ay_buffer self') (az_buffer self'))
          = (fun e => (e_ax e, (e_ay e, e_az e))) <$> kept) as Hzip.
  { rewrite Hx, Hy, Hz. clear. induction kept as [|e l IH]; csimpl; [done|].
    by rewrite IH. }
  unfold n. repeat split; try lia.
  - intros i Hi.
    assert (kept !! i = p !! (length p - length (ax_buffer self') + i)) as Hlook.
    { unfold kept, keep_last. rewrite lookup_drop. f_equal. lia. }
    rewrite <- Hlook.
    destruct (kept !! i) as [e|] eqn:He.
    + rewrite Hx, Hy, Hz, Ht.
      apply lookup_lt_Some in He as Hlt.
      rewrite (list_lookup_total_fmap e_ax), (list_lookup_total_fmap e_ay),
        (list_lookup_total_fmap e_az), (list_lookup_total_fmap e_ts) by done.
      rewrite (list_lookup_total_correct _ _ _ He). by destruct e.
    + apply lookup_ge_None in He. lia.
  - done.
  - unfold magnitudes. rewrite Hzip. clear.
    induction kept as [|e l IH]; csimpl; [done|].
    destruct (magnitude _ _ _); simpl; [|done]. f_equal. exact IH.
Qed.

End WindowClaims.

(** ** Unit conversion *)

Section Conversion.

(** [P] holds of every positive number of at most [n + 1] binary digits. *)
Fixpoint all_pos (n : nat) (P : positive -> bool) : bool :=
  P xH &&
  match n with
  | O => true
  | S n' => all_pos n' (fun q => P (xO q)) && all_pos n' (fun q => P (xI q))
  end.

Lemma all_pos_spec (n : nat) (P : positive -> bool) :
  all_pos n P = true -> forall p, Pos.size_nat p <= S n -> P p = true.
Proof.
  revert P. induction n as [|n IH]; intros P Hall p Hp; simpl in Hall;
    apply andb_true_iff in Hall as [H1 Hall].
  - destruct p; simpl in Hp; try lia; [destruct p; simpl in Hp; lia.. | done].
  - apply andb_true_iff in Hall as [HO HI].
    destruct p as [p|p|]; simpl in Hp; [| |done].
    + apply (IH (fun q => P (xI q))); [done | lia].
    + apply (IH (fun q => P (xO q))); [done | lia].
Qed.

(** On machine integers, [float_of_Z] is the processor's conversion. *)
Lemma float_of_uint63 (n : PrimInt63.int) :
  float_of_Z (Uint63Axioms.to_Z n) = of_uint63 n.
Proof.
  unfold float_of_Z. rewrite <- of_uint63_spec. apply SF2Prim_Prim2SF.
Qed.

Lemma small_pos_bound (p : positive) :
  Pos.size_nat p <= 16 -> (p < 65536)%positive.
Proof.
  intros Hp. destruct (Pos.ltb_spec p 65536%positive) as [|Hge]; [done|].
  assert (Pos.size_nat 65536%positive <= Pos.size_nat p) as Hs.
  { destruct (Pos.eq_dec p 65536%positive) as [->|]; [done|].
    apply Pos.size_nat_monotone. lia. }
  change (Pos.size_nat 65536%positive) with 17 in Hs. lia.
Qed.

Lemma float_of_small_pos (p : positive) :
  Pos.size_nat p <= 16 ->
  float_of_Z (Zpos p) = of_uint63 (Uint63Axioms.of_Z (Zpos p)).
Proof.
  intros Hp%small_pos_bound. rewrite <- float_of_uint63. f_equal.
  rewrite Uint63.of_Z_spec. symmetry. apply Z.mod_small.
  change Uint63Axioms.wB with 9223372036854775808%Z. lia.
Qed.

Lemma small_pos_finite :
  all_pos 15 (fun p =>
    negb (PrimFloat.is_infinity (of_uint63 (Uint63Axioms.of_Z (Zpos p))))) = true.
Proof. vm_compute. reflexivity. Qed.

Lemma abs_opp (f : float) : abs (- f) = abs f.
Proof.
  apply Prim2SF_inj. rewrite !FloatAxioms.abs_spec, FloatAxioms.opp_spec.
  by destruct (Prim2SF f).
Qed.

Lemma is_infinity_opp (f : float) :
  PrimFloat.is_infinity (- f) = PrimFloat.is_infinity f.
Proof. unfold PrimFloat.is_infinity. by rewrite abs_opp. Qed.

(** The sign of the integer plays no part in the overflow. *)
Lemma is_infinity_sign (p : positive) :
  PrimFloat.is_infinity (float_of_Z (Zneg p))
  = PrimFloat.is_infinity (float_of_Z (Zpos p)).
Proof.
  unfold float_of_Z, binary_normalize, binary_round, binary_round_aux.
  destruct (shl_align _ _ _) as [mz ez].
  destruct (shr_fexp _ _ _ _ _) as [mrs' e'].
  destruct (shr_fexp _ _ _ _ _) as [mrs'' e''].
  destruct (shr_m mrs'') as [|m|m]; [reflexivity| |reflexivity].
  destruct (Z.leb _ _); [|reflexivity].
  unfold SF2Prim. apply is_infinity_opp.
Qed.

Lemma sensor_count_finite (r : Z) :
  (-32768 <= r <= 32767)%Z -> PrimFloat.is_infinity (float_of_Z r) = false.
Proof.
  intros Hr.
  assert (forall p, (p <= 32768)%positive ->
            PrimFloat.is_infinity (float_of_Z (Zpos p)) = false) as Hpos.
  { intros p Hp.
    assert (Pos.size_nat p <= 16) as Hsize.
    { change 16 with (Pos.size_nat 32769%positive).
      apply Pos.size_nat_monotone. lia. }
    rewrite float_of_small_pos by done.
    apply negb_true_iff. by apply (all_pos_spec 15 _ small_pos_finite). }
  destruct r as [|p|p].
  - reflexivity.
  - apply Hpos. lia.
  - rewrite is_infinity_sign. apply Hpos. lia.
Qed.

Lemma truediv_float_int (r : Z) (d : float) :
  PrimFloat.is_infinity (float_of_Z r) = false -> PrimFloat.eqb d 0 = false ->
  truediv_float (VInt r) d = Ok (float_of_Z r / d)%float.
Proof.
  intros Hfin Hd. unfold truediv_float. simpl. unfold float_of_int.
  rewrite Hfin. simpl. by rewrite Hd.
Qed.

(** C9 (as amended): for every raw integer count [r] which converts to a
    finite double, in particular for every 16-bit count of the sensor,
    [convert_to_g] returns [r / 16384.0] and [convert_to_dps] returns
    [r / 131.0], the IEEE quotients of [float(r)], without raising; the
    functions return nothing else and change no state. *)
Theorem conversions_divide_by_scale (self : MPU6050Reader) (r : Z) :
  ACCEL_SCALE self = 16384%float -> GYRO_SCALE self = 131%float ->
  (-32768 <= r <= 32767)%Z \/ PrimFloat.is_infinity (float_of_Z r) = false ->
  convert_to_g self (VInt r) = Ok (float_of_Z r / 16384)%float
  /\ convert_to_dps self (VInt r) = Ok (float_of_Z r / 131)%float.
Proof.
  intros Ha Hg Hr.
  assert (PrimFloat.is_infinity (float_of_Z r) = false) as Hfin.
  { destruct Hr as [Hr|Hr]; [by apply sensor_count_finite | done]. }
  unfold convert_to_g, convert_to_dps. rewrite Ha, Hg.
  split; by apply truediv_float_int.
Qed.

Lemma conversions_divide_by_scale_witness :
  convert_to_g new_reader (VInt 8192) = Ok 0.5%float
  /\ convert_to_dps new_reader (VInt 8192) = Ok (float_of_Z 8192 / 131)%float.
Proof.
  apply (conversions_divide_by_scale new_reader 8192);
    [reflexivity | reflexivity | left; lia].
Defined.

(** C9 (as stated) fails on a count too large for a double: the conversion
    of the operand raises [OverflowError]. *)
Lemma conversion_overflows :
  convert_to_g new_reader (VInt (2 ^ 1024)) = Raise OverflowError
  /\ convert_to_dps new_reader (VInt (2 ^ 1024)) = Raise OverflowError.
Proof. split; vm_compute; reflexivity. Qed.

End Conversion.

(** ** The decoder *)

Section Decoder.
Context `{Platform}.

Lemma parse_data_flat (line : string) (clock : Z) p0 p1 p2 p3 p4 p5 p6 rest :
  startswith line "{" = false ->
  split "," (strip line) = p0 :: p1 :: p2 :: p3 :: p4 :: p5 :: p6 :: rest ->
  parse_data line clock
  = Ok (match mapM py_int [p0; p1; p2; p3; p4; p5; p6] with
        | Ok [t; ax; ay; az; gx; gy; gz] =>
            Some {| timestamp_ms := VInt t;
                    ax_raw := VInt ax; ay_raw := VInt ay; az_raw := VInt az;
                    gx_raw := VInt gx; gy_raw := VInt gy; gz_raw := VInt gz |}
        | _ => None
        end).
Proof.
  intros Hflat Hparts. unfold parse_data, parse_data_body.
  rewrite Hflat, Hparts. simpl.
  destruct (py_int p0); simpl; [|done].
  destruct (py_int p1); simpl; [|done].
  destruct (py_int p2); simpl; [|done].
  destruct (py_int p3); simpl; [|done].
  destruct (py_int p4); simpl; [|done].
  destruct (py_int p5); simpl; [|done].
  destruct (py_int p6); simpl; done.
Qed.


Lemma mapM_raises {A B} (f : A -> result B) (l : list A) (i : nat) (x : A) :
  l !! i = Some x -> raises (f x) = true -> raises (mapM f l) = true.
Proof.
  revert i. induction l as [|y l IH]; intros i Hi Hx; [done|]. csimpl.
  destruct (f y) eqn:Hy; simpl; [|done].
  destruct i as [|i]; simpl in Hi.
  - simplify_eq. by rewrite Hy in Hx.
  - specialize (IH i Hi Hx). by destruct (mapM f l).
Qed.

Lemma mapM_Ok_length {A B} (f : A -> result B) (l : list A) (k : list B) :
  mapM f l = Ok k -> length k = length l.
Proof.
  revert k. induction l as [|y l IH]; intros k Hk; csimpl in *;
    [by inversion Hk|].
  destruct (f y); simpl in Hk; [|done].
  destruct (mapM f l) as [k'|]; simpl in Hk; [|done].
  inversion Hk. simpl. by rewrite (IH k').
Qed.

Lemma seven_parts (parts : list string) :
  7 <= length parts ->
  exists p0 p1 p2 p3 p4 p5 p6 rest,
    parts = p0 :: p1 :: p2 :: p3 :: p4 :: p5 :: p6 :: rest.
Proof.
  intros Hlen.
  do 7 (destruct parts as [|? parts]; [simpl in Hlen; lia|]).
  by repeat eexists.
Qed.


End Decoder.





(** ** The analysis frame *)

Section Frame.
Context `{Platform}.

Definition mean_keys : list string :=
  ["mean_ax"; "mean_ay"; "mean_az"; "mean_magnitude"].
Definition rms_keys : list string :=
  ["rms_ax"; "rms_ay"; "rms_az"; "rms_magnitude"].
Definition spectrum_keys : list string := ["fft_freq"; "fft_amp"; "fft_peaks"].
Definition peak_keys : list string := ["peaks_detected"; "peak_values"].

(** [p'] is [p] with entries added or replaced under the keys [keys] only. *)
Definition extends (keys : list string) (p p' : gmap string pyval) : Prop :=
  forall k, k ∉ keys -> p' !! k = p !! k.

Lemma extends_refl keys p : extends keys p p.
Proof. by intros k _. Qed.

Lemma process_data_Ok self raw_data self' frame :
  process_data self raw_data = (self', Ok frame) ->
  exists c, convert self raw_data = Ok c
    /\ self' = push_sample self c (timestamp_ms raw_data)
    /\ analyse self' (initial_frame raw_data c) c = Ok frame.
Proof.
  unfold process_data. destruct (convert self raw_data) as [c|e]; [|done].
  intros [= <- Hframe]. by exists c.
Qed.

Lemma bind_Ok {A B} (m : result A) (f : A -> result B) (b : B) :
  m ≫= f = Ok b -> exists a, m = Ok a /\ f a = Ok b.
Proof. destruct m as [a|e]; simpl; [|done]. intros Hf. by exists a. Qed.

Lemma analyse_Ok self p c frame :
  analyse self p c = Ok frame ->
  exists m p1 p2 p3,
    magnitude (ax_g c) (ay_g c) (az_g c) = Ok m
    /\ add_means self (<["magnitude" := VFloat m]> p) = Ok p1
    /\ add_rms self p1 = Ok p2
    /\ add_spectrum self p2 = Ok p3
    /\ add_peaks self p3 = Ok frame.
Proof.
  unfold analyse. intros Hf.
  apply bind_Ok in Hf as (m & Hm & Hf).
  apply bind_Ok in Hf as (p1 & H1 & Hf).
  apply bind_Ok in Hf as (p2 & H2 & Hf).
  apply bind_Ok in Hf as (p3 & H3 & Hf).
  by exists m, p1, p2, p3.
Qed.

Lemma add_means_spec self p p' :
  add_means self p = Ok p' ->
  extends mean_keys p p'
  /\ (ax_buffer self <> [] ->
      exists mags, magnitudes self = Ok mags
        /\ p' !! "mean_magnitude" = Some (VFloat (np_mean mags))
        /\ p' !! "mean_ax" = Some (VFloat (np_mean (ax_buffer self)))
        /\ p' !! "mean_ay" = Some (VFloat (np_mean (ay_buffer self)))
        /\ p' !! "mean_az" = Some (VFloat (np_mean (az_buffer self)))).
Proof.
  unfold add_means. destruct (ax_buffer self) as [|x l] eqn:Hbuf.
  - intros [= <-]. split; [apply extends_refl | done].
  - intros Hp. apply bind_Ok in Hp as (mags & Hmags & [= <-]). split.
    + intros k Hk. unfold mean_keys in Hk.
      rewrite !not_elem_of_cons in Hk. destruct Hk as (? & ? & ? & ? & _).
      by rewrite !lookup_insert_ne.
    + intros _. exists mags. by simplify_map_eq.
Qed.

Lemma add_rms_spec self p p' :
  add_rms self p = Ok p' ->
  extends rms_keys p p'
  /\ (10 <= length (ax_buffer self) -> forall k, k ∈ rms_keys -> is_Some (p' !! k))
  /\ (length (ax_buffer self) < 10 -> p' = p).
Proof.
  unfold add_rms. destruct (Nat.leb_spec 10 (length (ax_buffer self))) as [Hn|Hn].
  - intros Hp. apply bind_Ok in Hp as (mags & Hmags & [= <-]). repeat split.
    + intros k Hk. unfold rms_keys in Hk.
      rewrite !not_elem_of_cons in Hk. destruct Hk as (? & ? & ? & ? & _).
      by rewrite !lookup_insert_ne.
    + intros _ k Hk. unfold rms_keys in Hk.
      rewrite !elem_of_cons, elem_of_nil in Hk.
      destruct Hk as [->|[->|[->|[->|[]]]]]; simplify_map_eq; eauto.
    + lia.
  - intros [= <-]. split; [apply extends_refl|]. split; [intros; lia | done].
Qed.

Lemma add_spectrum_spec self p p' :
  add_spectrum self p = Ok p' ->
  extends spectrum_keys p p'
  /\ (fft_window self <= length (ax_buffer self) ->
      exists fft_freq fft_amp,
        compute_fft self (ax_buffer self) = Ok (fft_freq, fft_amp)
        /\ p' !! "fft_freq" = Some (float_list fft_freq)
        /\ p' !! "fft_amp" = Some (float_list fft_amp)
        /\ (5 < length fft_amp ->
            exists peaks, fft_peaks fft_freq fft_amp = Ok peaks
              /\ p' !! "fft_peaks" = Some (VList peaks))
        /\ (length fft_amp <= 5 -> p' !! "fft_peaks" = p !! "fft_peaks"))
  /\ (length (ax_buffer self) < fft_window self -> p' = p).
Proof.
  unfold add_spectrum.
  destruct (Nat.leb_spec (fft_window self) (length (ax_buffer self))) as [Hn|Hn].
  - intros Hp. apply bind_Ok in Hp as ([fft_freq fft_amp] & Hfft & Hp).
    assert (negb (length fft_amp =? 0) && (5 <? length fft_amp)
            = (5 <? length fft_amp)) as Hcond.
    { destruct (Nat.ltb_spec 5 (length fft_amp)); [|by rewrite andb_false_r].
      destruct (Nat.eqb_spec (length fft_amp) 0); [lia | done]. }
    rewrite Hcond in Hp.
    destruct (Nat.ltb_spec 5 (length fft_amp)) as [Hbins|Hbins].
    + apply bind_Ok in Hp as (peaks & Hpeaks & [= <-]). repeat split.
      * intros k Hk. unfold spectrum_keys in Hk.
        rewrite !not_elem_of_cons in Hk. destruct Hk as (? & ? & ? & _).
        by rewrite !lookup_insert_ne.
      * intros _. exists fft_freq, fft_amp. repeat split; try by simplify_map_eq.
        -- intros _. exists peaks. by simplify_map_eq.
        -- lia.
      * lia.
    + injection Hp as <-. repeat split.
      * intros k Hk. unfold spectrum_keys in Hk.
        rewrite !not_elem_of_cons in Hk. destruct Hk as (? & ? & ? & _).
        by rewrite !lookup_insert_ne.
      * intros _. exists fft_freq, fft_amp. repeat split; try by simplify_map_eq.
        lia.
      * lia.
  - intros [= <-]. split; [apply extends_refl|]. split; [intros; lia | done].
Qed.

Lemma seq_sorted (j n : nat) : StronglySorted lt (seq j n).
Proof.
  revert j. induction n as [|n IH]; intros j; simpl; constructor; [apply IH|].
  apply Forall_forall. intros k Hk. apply elem_of_seq in Hk. lia.
Qed.

Lemma filter_sorted {A} (R : A -> A -> Prop) (P : A -> Prop)
    `{!forall x, Decision (P x)} (l : list A) :
  StronglySorted R l -> StronglySorted R (filter P l).
Proof.
  induction 1 as [|x l Hl IH Hx]; [constructor|].
  rewrite filter_cons. case_decide; [|done].
  constructor; [done|].
  rewrite Forall_forall in *. intros y Hy.
  apply list_elem_of_filter in Hy as [_ Hy]. by apply Hx.
Qed.

(** The indices [detect_peaks] returns: interior samples strictly above
    both neighbours and strictly above the bar [mean + threshold * std]. *)
Lemma detect_peaks_spec (buffer : list float) (threshold : float) (i : nat) :
  i ∈ detect_peaks buffer threshold <->
  1 <= i /\ i + 1 < length buffer
  /\ float_gt (buffer !!! i) (buffer !!! (i - 1)) = true
  /\ float_gt (buffer !!! i) (buffer !!! (i + 1)) = true
  /\ float_gt (buffer !!! i) (np_mean buffer + threshold * np_std buffer)%float = true.
Proof.
  unfold detect_peaks. destruct (Nat.ltb_spec (length buffer) 3) as [Hlen|Hlen].
  - split; [by intros ?%elem_of_nil | lia].
  - rewrite list_elem_of_filter, elem_of_seq, !andb_true_iff. split.
    + intros ([[? ?] ?] & ? & ?). repeat split; try done; lia.
    + intros (? & ? & ? & ? & ?). repeat split; try done; lia.
Qed.

Lemma detect_peaks_sorted (buffer : list float) (threshold : float) :
  StronglySorted lt (detect_peaks buffer threshold).
Proof.
  unfold detect_peaks. case_match; [constructor|].
  apply filter_sorted, seq_sorted.
Qed.

Lemma mapM_py_index {A} `{!Inhabited A} (l : list A) (indices : list nat) :
  (forall i, i ∈ indices -> i < length l) ->
  mapM (py_index l) indices = Ok ((l !!!.) <$> indices).
Proof.
  induction indices as [|i indices IH]; intros Hin; [done|].
  destruct (lookup_lt_is_Some_2 l i) as [x Hx]; [apply Hin; left|].
  change (mapM (py_index l) (i :: indices))
    with (py_index l i ≫= fun y =>
          mapM (py_index l) indices ≫= fun k => mret (y :: k)).
  assert (py_index l i = Ok x) as -> by (unfold py_index; by rewrite Hx).
  rewrite IH by (intros j Hj; apply Hin; by right). simpl.
  by rewrite (list_lookup_total_correct _ _ _ Hx).
Qed.

Lemma keep_last_elem_of {A} (n : nat) (l : list A) (x : A) :
  x ∈ keep_last n l -> x ∈ l.
Proof.
  unfold keep_last. intros Hx. rewrite <- (take_drop (length l - n) l).
  apply elem_of_app. by right.
Qed.

(** Lines 169-173 never raise. *)
Lemma add_peaks_eq self p :
  add_peaks self p
  = Ok (if 20 <=? length (ax_buffer self) then
          match detect_peaks (ax_buffer self) 2 with
          | [] => p
          | peaks =>
              <["peak_values" :=
                  float_list ((ax_buffer self !!!.) <$> keep_last 3 peaks)]> (
              <["peaks_detected" := VBool true]> p)
          end
        else p).
Proof.
  unfold add_peaks. case_match; [|done].
  destruct (detect_peaks (ax_buffer self) 2) as [|i peaks] eqn:Hpeaks; [done|].
  change (py_slice_last 3 (i :: peaks)) with (keep_last 3 (i :: peaks)).
  rewrite mapM_py_index; [done|].
  intros j Hj%keep_last_elem_of. rewrite <- Hpeaks in Hj.
  apply detect_peaks_spec in Hj. lia.
Qed.

Lemma add_peaks_spec self p p' :
  add_peaks self p = Ok p' ->
  let peaks := detect_peaks (ax_buffer self) 2 in
  extends peak_keys p p'
  /\ (20 <= length (ax_buffer self) -> peaks <> [] ->
      p' !! "peaks_detected" = Some (VBool true)
      /\ p' !! "peak_values"
         = Some (float_list ((ax_buffer self !!!.) <$> keep_last 3 peaks)))
  /\ (length (ax_buffer self) < 20 \/ peaks = [] -> p' = p).
Proof.
  rewrite add_peaks_eq.
  destruct (Nat.leb_spec 20 (length (ax_buffer self))) as [Hn|Hn];
    [destruct (detect_peaks (ax_buffer self) 2) as [|i l] eqn:Hpeaks|];
    intros [= <-] peaks; subst peaks.
  - split; [apply extends_refl|]. split; [done | done].
  - split; [|split].
    + intros k Hk. unfold peak_keys in Hk.
      rewrite !not_elem_of_cons in Hk. destruct Hk as (? & ? & _).
      by rewrite !lookup_insert_ne.
    + intros _ _. by simplify_map_eq.
    + intros [?|?]; [lia | done].
  - split; [apply extends_refl|]. split; [intros; lia | done].
Qed.

Lemma initial_frame_keys raw_data c k :
  k ∈ rms_keys ++ spectrum_keys ++ peak_keys ++ mean_keys ++ ["magnitude"] ->
  initial_frame raw_data c !! k = None.
Proof.
  unfold rms_keys, spectrum_keys, peak_keys, mean_keys. simpl.
  rewrite !elem_of_cons, elem_of_nil. unfold initial_frame.
  intros Hk. repeat (destruct Hk as [->|Hk]; [by simplify_map_eq|]). done.
Qed.

(** The frame a call returns, step by step. *)
Lemma process_data_frame self raw_data self' frame :
  process_data self raw_data = (self', Ok frame) ->
  exists c m p1 p2 p3,
    convert self raw_data = Ok c
    /\ self' = push_sample self c (timestamp_ms raw_data)
    /\ magnitude (ax_g c) (ay_g c) (az_g c) = Ok m
    /\ add_means self' (<["magnitude" := VFloat m]> (initial_frame raw_data c)) = Ok p1
    /\ add_rms self' p1 = Ok p2
    /\ add_spectrum self' p2 = Ok p3
    /\ add_peaks self' p3 = Ok frame.
Proof.
  intros (c & Hc & Hself & Hf)%process_data_Ok.
  apply analyse_Ok in Hf as (m & p1 & p2 & p3 & ? & ? & ? & ? & ?).
  by exists c, m, p1, p2, p3.
Qed.

End Frame.

Section FrameClaims.
Context `{Platform}.

(** Closed questions about keys are decided by computation. *)
Ltac key_dec := apply (bool_decide_unpack _); vm_compute; exact I.

(** A key known to lie in one of the key lists: one case for each. *)
Ltac key_cases Hk :=
  unfold rms_keys, spectrum_keys, peak_keys, mean_keys in Hk;
  rewrite ?elem_of_app, ?elem_of_cons, ?elem_of_nil in Hk;
  destruct_or! Hk; try (exfalso; exact Hk); subst.

(** C2: in every frame [process_data] returns, the four RMS
    fields are present exactly when the window, the new sample included,
    holds at least 10 samples, and the spectrum ([fft_freq], [fft_amp])
    exactly when it holds at least [fft_window] (128) samples; [fft_peaks] is
    present exactly when moreover the spectrum has more than five bins; the
    time-domain peak fields are present exactly when the window holds at
    least 20 samples and [detect_peaks] accepted at least one peak. *)
Theorem analysis_fields_follow_window_size (self : MPU6050Reader)
    (raw_data : raw_sample) (self' : MPU6050Reader) (frame : gmap string pyval) :
  process_data self raw_data = (self', Ok frame) ->
  let n := length (ax_buffer self') in
  (forall k, k ∈ rms_keys -> (is_Some (frame !! k) <-> 10 <= n))
  /\ (forall k, k ∈ ["fft_freq"; "fft_amp"] ->
      (is_Some (frame !! k) <-> fft_window self' <= n))
  /\ (is_Some (frame !! "fft_peaks") <->
      fft_window self' <= n
      /\ exists fft_freq fft_amp,
           compute_fft self' (ax_buffer self') = Ok (fft_freq, fft_amp)
           /\ 5 < length fft_amp)
  /\ (forall k, k ∈ peak_keys ->
      (is_Some (frame !! k) <-> 20 <= n /\ detect_peaks (ax_buffer self') 2 <> [])).
Proof.
  intros (c & m & p1 & p2 & p3 & Hc & Hself & Hm & H1 & H2 & H3 & H4)%process_data_frame n.
  apply add_means_spec in H1 as [E1 _].
  apply add_rms_spec in H2 as (E2 & Hrms & Hnorms).
  apply add_spectrum_spec in H3 as (E3 & Hfft & Hnofft).
  apply add_peaks_spec in H4 as (E4 & Hpk & Hnopk).
  fold n in Hrms, Hnorms, Hfft, Hnofft, Hpk, Hnopk.
  assert (forall k, k ∈ rms_keys ++ spectrum_keys ++ peak_keys -> p1 !! k = None) as Hp1.
  { intros k Hk. key_cases Hk; (rewrite E1 by key_dec);
      (rewrite lookup_insert_ne by done); apply initial_frame_keys; key_dec. }
  assert (forall k, k ∈ spectrum_keys ++ peak_keys -> p2 !! k = None) as Hp2.
  { intros k Hk. key_cases Hk; (rewrite E2 by key_dec); apply Hp1; key_dec. }
  assert (forall k, k ∈ peak_keys -> p3 !! k = None) as Hp3.
  { intros k Hk. key_cases Hk; (rewrite E3 by key_dec); apply Hp2; key_dec. }
  split; [|split; [|split]].
  - intros k Hk. key_cases Hk; (rewrite E4, E3 by key_dec);
      (split;
       [ intros Hsome; destruct (decide (10 <= n)) as [|Hlt]; [done|];
         rewrite Hnorms, Hp1 in Hsome by (lia || key_dec); by destruct Hsome
       | intros Hn; apply Hrms; [done | key_dec] ]).
  - intros k Hk. destruct (decide (fft_window self' <= n)) as [Hn|Hlt].
    + destruct (Hfft Hn) as (ff & fa & _ & Hf & Ha & _).
      key_cases Hk; (rewrite E4 by key_dec); split; eauto.
    + key_cases Hk; (rewrite E4 by key_dec);
        (rewrite Hnofft, Hp2 by (lia || key_dec));
        (split; [by intros [] | lia]).
  - rewrite E4 by key_dec. split.
    + intros Hsome. destruct (decide (fft_window self' <= n)) as [Hn|Hlt].
      * split; [done|]. destruct (Hfft Hn) as (ff & fa & Hcf & _ & _ & _ & Hfew).
        exists ff, fa. split; [done|].
        destruct (decide (5 < length fa)) as [|Hle]; [done|].
        rewrite Hfew, Hp2 in Hsome by (lia || key_dec). by destruct Hsome.
      * rewrite Hnofft, Hp2 in Hsome by (lia || key_dec). by destruct Hsome.
    + intros (Hn & ff & fa & Hcf & Hbins).
      destruct (Hfft Hn) as (ff' & fa' & Hcf' & _ & _ & Hmany & _).
      rewrite Hcf in Hcf'. injection Hcf' as <- <-.
      destruct (Hmany Hbins) as (peaks & _ & ->). eauto.
  - intros k Hk. specialize (Hp3 k Hk). split.
    + intros Hsome.
      destruct (decide (20 <= n)) as [Hn|Hlt];
        [destruct (decide (detect_peaks (ax_buffer self') 2 = [])) as [Hnone|]|];
        [|done|].
      * rewrite Hnopk, Hp3 in Hsome by (by right). by destruct Hsome.
      * rewrite Hnopk, Hp3 in Hsome by (left; lia). by destruct Hsome.
    + intros [Hn Hsomepk]. destruct (Hpk Hn Hsomepk) as [Hd Hv].
      key_cases Hk; eauto.
Qed.

(** Before lines 169-173 run, the frame has no peak field. *)
Lemma process_data_frame_peaks self raw_data self' frame :
  process_data self raw_data = (self', Ok frame) ->
  exists p3, add_peaks self' p3 = Ok frame /\ forall k, k ∈ peak_keys -> p3 !! k = None.
Proof.
  intros (c & m & p1 & p2 & p3 & Hc & Hself & Hm & H1 & H2 & H3 & H4)%process_data_frame.
  exists p3. split; [done|].
  apply add_means_spec in H1 as [E1 _].
  apply add_rms_spec in H2 as (E2 & _).
  apply add_spectrum_spec in H3 as (E3 & _).
  intros k Hk. key_cases Hk; (rewrite E3, E2, E1 by key_dec);
    (rewrite lookup_insert_ne by done); apply initial_frame_keys; key_dec.
Qed.

(** The means written by lines 139-146 reach the frame unchanged. *)
Lemma process_data_frame_means self raw_data self' frame :
  process_data self raw_data = (self', Ok frame) ->
  exists p0 p1, add_means self' p0 = Ok p1 /\ forall k, k ∈ mean_keys -> frame !! k = p1 !! k.
Proof.
  intros (c & m & p1 & p2 & p3 & Hc & Hself & Hm & H1 & H2 & H3 & H4)%process_data_frame.
  eexists _, p1. split; [done|].
  apply add_rms_spec in H2 as (E2 & _).
  apply add_spectrum_spec in H3 as (E3 & _).
  apply add_peaks_spec in H4 as (E4 & _).
  intros k Hk. key_cases Hk; by rewrite E4, E3, E2 by key_dec.
Qed.

(** C6: for every frame computed over a window of at least 20 samples: the
    indices [detect_peaks] returns are exactly the interior indices of the
    [ax] buffer whose sample is strictly greater than both neighbours and
    strictly greater than [mean + 2.0 * std] of the buffer; they come in
    increasing order, so the last ones are the most recent; and the frame
    reports the values at the last three of them at most, together with the
    flag, or neither field when no peak was accepted. *)
Theorem time_domain_peaks (self : MPU6050Reader) (raw_data : raw_sample)
    (self' : MPU6050Reader) (frame : gmap string pyval) :
  process_data self raw_data = (self', Ok frame) ->
  20 <= length (ax_buffer self') ->
  let buf := ax_buffer self' in
  let peaks := detect_peaks buf 2 in
  let bar := (np_mean buf + 2 * np_std buf)%float in
  (forall i, i ∈ peaks <->
     1 <= i /\ i + 1 < length buf
     /\ float_gt (buf !!! i) (buf !!! (i - 1)) = true
     /\ float_gt (buf !!! i) (buf !!! (i + 1)) = true
     /\ float_gt (buf !!! i) bar = true)
  /\ StronglySorted lt peaks
  /\ length (keep_last 3 peaks) <= 3
  /\ (peaks <> [] ->
      frame !! "peaks_detected" = Some (VBool true)
      /\ frame !! "peak_values" = Some (float_list ((buf !!!.) <$> keep_last 3 peaks)))
  /\ (peaks = [] ->
      frame !! "peaks_detected" = None /\ frame !! "peak_values" = None).
Proof.
  intros (p3 & H4 & Hp3)%process_data_frame_peaks Hn buf peaks bar.
  apply add_peaks_spec in H4 as (E4 & Hpk & Hnopk).
  fold buf peaks in Hpk, Hnopk.
  split; [intros i; apply detect_peaks_spec|].
  split; [apply detect_peaks_sorted|].
  split; [rewrite keep_last_length; lia|].
  split.
  - intros Hsome. by apply Hpk.
  - intros Hnone. rewrite Hnopk by (by right). split; apply Hp3; key_dec.
Qed.

End FrameClaims.

(** A sample at rest: every count is zero. *)
Definition still_sample : raw_sample := {|
  timestamp_ms := VInt 0;
  ax_raw := VInt 0; ay_raw := VInt 0; az_raw := VInt 0;
  gx_raw := VInt 0; gy_raw := VInt 0; gz_raw := VInt 0;
|}.

(** A reader whose window holds twenty samples at rest but the eleventh,
    a jolt of 1 g along x. *)
Definition jolted_reader : MPU6050Reader :=
  with_buffers new_reader
    (repeat 0%float 10 ++ [1%float] ++ repeat 0%float 9)
    (repeat 0%float 20) (repeat 0%float 20) (repeat (VInt 0) 20).

(** The frame a call returned, the empty one if it raised. *)
Definition returned (r : MPU6050Reader * result (gmap string pyval))
    : gmap string pyval :=
  match r.2 with Ok frame => frame | Raise _ => ∅ end.

Lemma analysis_fields_follow_window_size_witness :
  exists self' frame,
    process_data new_reader still_sample = (self', Ok frame)
    /\ length (ax_buffer self') = 1
    /\ (is_Some (frame !! "rms_ax") <-> 10 <= 1).
Proof.
  pose (r := process_data new_reader still_sample).
  assert (process_data new_reader still_sample = (r.1, Ok (returned r))) as Heq
    by (vm_compute; reflexivity).
  exists r.1, (returned r). split; [exact Heq|]. split; [reflexivity|].
  destruct (analysis_fields_follow_window_size _ _ _ _ Heq) as (Hrms & _).
  apply (Hrms "rms_ax"). apply (bool_decide_unpack _). vm_compute. exact I.
Defined.

Lemma time_domain_peaks_witness :
  exists self' frame,
    process_data jolted_reader still_sample = (self', Ok frame)
    /\ frame !! "peaks_detected" = Some (VBool true)
    /\ frame !! "peak_values" = Some (float_list [1%float]).
Proof.
  pose (r := process_data jolted_reader still_sample).
  assert (process_data jolted_reader still_sample = (r.1, Ok (returned r))) as Heq
    by (vm_compute; reflexivity).
  exists r.1, (returned r). split; [exact Heq|].
  assert (20 <= length (ax_buffer r.1)) as Hlen by (vm_compute; lia).
  destruct (time_domain_peaks _ _ _ _ Heq Hlen) as (_ & _ & _ & Hsome & _).
  apply Hsome. vm_compute. discriminate.
Defined.

(** A reader whose window holds twenty samples at rest. *)
Definition quiet_reader : MPU6050Reader :=
  with_buffers new_reader (repeat 0%float 20) (repeat 0%float 20) (repeat 0%float 20)
    (repeat (VInt 0) 20).

(** C2, the counterexample: a window of twenty-one samples, over the
    threshold of twenty, and a frame without the time-domain peak fields,
    no sample being a peak. *)
Lemma quiet_window_has_no_peak_fields :
  exists self' frame,
    process_data quiet_reader still_sample = (self', Ok frame)
    /\ length (ax_buffer self') = 21
    /\ frame !! "peaks_detected" = None
    /\ frame !! "peak_values" = None.
Proof.
  exists (process_data quiet_reader still_sample).1,
         (returned (process_data quiet_reader still_sample)).
  split_and!; reflexivity.
Qed.

Section MeanMagnitude.
Context `{Platform}.

Lemma feed_snoc self samples raw_data :
  feed self (samples ++ [raw_data]) = (process_data (feed self samples) raw_data).1.
Proof.
  revert self. induction samples as [|r rest IH]; intros self; simpl; [done|].
  apply IH.
Qed.

Lemma mapM_Ok_lookup {A B} `{!Inhabited B} (f : A -> result B) (l : list A)
    (k : list B) (i : nat) (x : A) :
  mapM f l = Ok k -> l !! i = Some x -> f x = Ok (k !!! i).
Proof.
  revert k i. induction l as [|y l IH]; intros k i Hk Hi; [done|].
  change (mapM f (y :: l)) with (f y ≫= fun b => mapM f l ≫= fun bs => mret (b :: bs)) in Hk.
  apply bind_Ok in Hk as (b & Hb & Hk). apply bind_Ok in Hk as (bs & Hbs & [= <-]).
  destruct i as [|i]; simpl in Hi.
  - by simplify_eq.
  - apply (IH bs i Hbs Hi).
Qed.

(** The magnitudes computed over the window are those of the entries kept. *)
Lemma feed_magnitudes (self : MPU6050Reader) (samples : list raw_sample) :
  magnitudes (feed (empty_window self) samples)
  = mapM (fun e => magnitude (e_ax e) (e_ay e) (e_az e))
         (keep_last (buffer_size self) (pushed self samples)).
Proof.
  destruct (feed_empty_window self samples) as (Hx & Hy & Hz & _).
  unfold magnitudes. rewrite Hx, Hy, Hz. clear.
  induction (keep_last (buffer_size self) (pushed self samples)) as [|e l IH];
    csimpl; [done|].
  destruct (magnitude _ _ _); simpl; [|done]. f_equal. exact IH.
Qed.

(** C7: [mean_magnitude] is [np.mean] of one magnitude per sample of the window:
    on a reader fed from empty buffers, the list averaged has the length of
    the window, and its entry at an index is the magnitude of the three
    accelerations the buffers hold at that index. *)
Theorem mean_magnitude_averages_sample_magnitudes (self : MPU6050Reader)
    (samples : list raw_sample) (raw_data : raw_sample)
    (self' : MPU6050Reader) (frame : gmap string pyval) :
  process_data (feed (empty_window self) samples) raw_data = (self', Ok frame) ->
  ax_buffer self' <> [] ->
  exists mags,
    frame !! "mean_magnitude" = Some (VFloat (np_mean mags))
    /\ length mags = length (ax_buffer self')
    /\ forall i, i < length mags ->
         magnitude (ax_buffer self' !!! i) (ay_buffer self' !!! i)
                   (az_buffer self' !!! i) = Ok (mags !!! i).
Proof.
  intros Hrun Hne.
  assert (self' = feed (empty_window self) (samples ++ [raw_data])) as Hself.
  { rewrite feed_snoc. by rewrite Hrun. }
  destruct (process_data_frame_means _ _ _ _ Hrun) as (p0 & p1 & Hmeans & Hkeep).
  apply add_means_spec in Hmeans as [_ Hmeans].
  destruct (Hmeans Hne) as (mags & Hmags & Hmm & _).
  exists mags. split; [rewrite Hkeep; [done|]; apply (bool_decide_unpack _); vm_compute; exact I|].
  pose proof (feed_empty_window self (samples ++ [raw_data])) as Hcols.
  rewrite <- Hself in Hcols.
  pose proof (feed_magnitudes self (samples ++ [raw_data])) as Hmap.
  rewrite <- Hself in Hmap. rewrite Hmags in Hmap. symmetry in Hmap.
  destruct (columns_lengths _ _ Hcols) as (Lx & _).
  destruct Hcols as (Hx & Hy & Hz & _).
  set (kept := keep_last (buffer_size self) (pushed self (samples ++ [raw_data]))) in *.
  assert (length mags = length kept) as Hlen by (by apply mapM_Ok_length in Hmap).
  split; [lia|].
  intros i Hi.
  destruct (lookup_lt_is_Some_2 kept i) as [e He]; [lia|].
  rewrite Hx, Hy, Hz.
  rewrite (list_lookup_total_fmap e_ax), (list_lookup_total_fmap e_ay),
    (list_lookup_total_fmap e_az) by lia.
  rewrite (list_lookup_total_correct _ _ _ He).
  apply (mapM_Ok_lookup _ _ _ _ _ Hmap He).
Qed.

End MeanMagnitude.

(** Two samples tilted by 1 g along x, in opposite directions. *)
Definition tilted (counts : Z) : raw_sample := {|
  timestamp_ms := VInt 0;
  ax_raw := VInt counts; ay_raw := VInt 0; az_raw := VInt 0;
  gx_raw := VInt 0; gy_raw := VInt 0; gz_raw := VInt 0;
|}.

(** The mean of the magnitudes ([1]) is not the magnitude of the means
    ([0]) on the window of the two tilted samples. *)
Lemma mean_magnitude_averages_sample_magnitudes_witness :
  exists self' frame mags,
    process_data (feed (empty_window new_reader) [tilted 16384]) (tilted (-16384))
    = (self', Ok frame)
    /\ frame !! "mean_magnitude" = Some (VFloat (np_mean mags))
    /\ np_mean mags = 1%float
    /\ frame !! "mean_ax" = Some (VFloat 0)
    /\ frame !! "mean_ay" = Some (VFloat 0)
    /\ frame !! "mean_az" = Some (VFloat 0)
    /\ magnitude 0 0 0 = Ok 0%float.
Proof.
  pose (r := process_data (feed (empty_window new_reader) [tilted 16384])
               (tilted (-16384))).
  assert (process_data (feed (empty_window new_reader) [tilted 16384])
            (tilted (-16384)) = (r.1, Ok (returned r))) as Heq
    by (vm_compute; reflexivity).
  assert (ax_buffer r.1 <> []) as Hne by (vm_compute; discriminate).
  destruct (mean_magnitude_averages_sample_magnitudes _ _ _ _ _ Heq Hne)
    as (mags & Hmm & Hlen & Hmag).
  exists r.1, (returned r), mags. split; [exact Heq|]. split; [exact Hmm|].
  split.
  - assert (Some (VFloat (np_mean mags)) = Some (VFloat 1)) as Hv
      by (rewrite <- Hmm; vm_compute; reflexivity).
    by injection Hv.
  - repeat split; vm_compute; reflexivity.
Defined.

(** ** Broadcast *)

Section Broadcast.

(** The set of clients once the handlers which ran during the sends to
    [snapshot] made their changes. *)
Definition after_meanwhile (net : client -> send_outcome) (snapshot : list client)
    (clients : gset client) : gset client :=
  foldl (fun s c => foldl apply_membership s (meanwhile (net c))) clients snapshot.

Lemma send_all_spec snapshot net clients dead log :
  send_all snapshot net clients dead log
  = (after_meanwhile net snapshot clients,
     dead ++ filter (fun c => delivered (net c) = false) snapshot,
     log ++ ((fun c => (c, delivered (net c))) <$> snapshot)).
Proof.
  revert clients dead log.
  induction snapshot as [|c rest IH]; intros clients dead log; simpl.
  - by rewrite !app_nil_r.
  - rewrite filter_cons. destruct (delivered (net c)) eqn:Hd; rewrite IH.
    + rewrite decide_False by done. by rewrite <- app_assoc.
    + rewrite decide_True by done. by rewrite <- !app_assoc.
Qed.

Lemma publish_spec clients net :
  publish clients net
  = (foldl (fun s d => s ∖ {[d]})
       (after_meanwhile net (elements clients) clients)
       (filter (fun c => delivered (net c) = false) (elements clients)),
     (fun c => (c, delivered (net c))) <$> elements clients).
Proof. unfold publish. by rewrite send_all_spec. Qed.

Lemma elem_of_discard_all (s : gset client) (dead : list client) (c : client) :
  c ∈ foldl (fun s d => s ∖ {[d]}) s dead <-> c ∈ s /\ c ∉ dead.
Proof.
  revert s. induction dead as [|d dead IH]; intros s; simpl.
  - rewrite elem_of_nil. tauto.
  - rewrite IH, not_elem_of_cons. set_solver.
Qed.

Lemma elem_of_apply_memberships (s : gset client) (ms : list membership) (c : client) :
  c ∈ foldl apply_membership s ms -> c ∈ s \/ Connect c ∈ ms.
Proof.
  revert s. induction ms as [|m ms IH]; intros s; simpl; [by left|].
  intros [Hc|Hc]%IH; [|right; by right].
  destruct m as [c'|c']; simpl in Hc.
  - apply elem_of_union in Hc as [->%elem_of_singleton|Hc]; [right; left | by left].
  - left. set_solver.
Qed.

Lemma elem_of_after_meanwhile net snapshot (clients : gset client) (c : client) :
  c ∈ after_meanwhile net snapshot clients ->
  c ∈ clients \/ exists c0, c0 ∈ snapshot /\ Connect c ∈ meanwhile (net c0).
Proof.
  unfold after_meanwhile. revert clients.
  induction snapshot as [|c0 rest IH]; intros clients; simpl; [by left|].
  intros [Hc|(c1 & Hc1 & Hconn)]%IH.
  - apply elem_of_apply_memberships in Hc as [Hc|Hc]; [by left|].
    right. exists c0. split; [left | done].
  - right. exists c1. split; [by right | done].
Qed.

Lemma after_meanwhile_quiet net snapshot (clients : gset client) :
  (forall c, c ∈ snapshot -> meanwhile (net c) = []) ->
  after_meanwhile net snapshot clients = clients.
Proof.
  unfold after_meanwhile. revert clients.
  induction snapshot as [|c0 rest IH]; intros clients Hquiet; simpl; [done|].
  rewrite (Hquiet c0) by left. simpl. apply IH. intros c Hc. apply Hquiet. by right.
Qed.

(** The log of a broadcast, and who is registered after it. *)
Lemma publish_outcome (clients : gset client) (net : client -> send_outcome) :
  (publish clients net).2.*1 = elements clients
  /\ (forall c b, (c, b) ∈ (publish clients net).2 -> b = delivered (net c))
  /\ (forall c, c ∈ clients -> delivered (net c) = false ->
        c ∉ (publish clients net).1)
  /\ (forall c, c ∈ (publish clients net).1 ->
        (c ∈ clients /\ delivered (net c) = true)
        \/ exists c0, c0 ∈ clients /\ Connect c ∈ meanwhile (net c0)).
Proof.
  rewrite publish_spec. simpl. split_and!.
  - rewrite <- list_fmap_compose. apply list_fmap_id.
  - intros c b (c' & [= -> ->] & _)%list_elem_of_fmap. done.
  - intros c Hc Hfail [_ Hdead]%elem_of_discard_all. apply Hdead.
    apply list_elem_of_filter. split; [done | by apply elem_of_elements].
  - intros c [Hc Hdead]%elem_of_discard_all.
    apply elem_of_after_meanwhile in Hc as [Hc|(c0 & Hc0 & Hconn)].
    + left. split; [done|]. destruct (delivered (net c)) eqn:Hd; [done|].
      exfalso. apply Hdead. apply list_elem_of_filter.
      split; [done | by apply elem_of_elements].
    + right. exists c0. split; [by apply elem_of_elements | done].
Qed.

(** X4: one broadcast (lines 201-208).  Every client registered when it starts
    is sent the packet exactly once, whatever happens to the others; a client
    whose send fails is not registered when the broadcast ends; a client
    registered at the end was registered at the start or connected during the
    sends; and when no connection opens or closes meanwhile the clients left
    are exactly those whose send succeeded. *)
Theorem publish_reaches_every_client (clients : gset client)
    (net : client -> send_outcome) :
  let clients' := (publish clients net).1 in
  let log := (publish clients net).2 in
  log.*1 = elements clients
  /\ NoDup log.*1
  /\ (forall c, c ∈ clients <-> (c, delivered (net c)) ∈ log)
  /\ (forall c b, (c, b) ∈ log -> b = delivered (net c))
  /\ (forall c, c ∈ clients -> delivered (net c) = false -> c ∉ clients')
  /\ (forall c, c ∈ clients' ->
        (c ∈ clients /\ delivered (net c) = true)
        \/ exists c0, c0 ∈ clients /\ Connect c ∈ meanwhile (net c0))
  /\ ((forall c, c ∈ clients -> meanwhile (net c) = []) ->
      forall c, c ∈ clients' <-> c ∈ clients /\ delivered (net c) = true).
Proof.
  intros clients' log. subst clients' log. rewrite publish_spec. simpl.
  assert (((fun c => (c, delivered (net c))) <$> elements clients).*1
          = elements clients) as Hfst.
  { rewrite <- list_fmap_compose. apply list_fmap_id. }
  split; [done|]. split; [rewrite Hfst; apply NoDup_elements|].
  split; [|split; [|split; [|split]]].
  - intros c. rewrite list_elem_of_fmap. split.
    + intros Hc. exists c. split; [done | by apply elem_of_elements].
    + intros (c' & [= <- _] & Hc'). by apply elem_of_elements.
  - intros c b (c' & [= -> ->] & _)%list_elem_of_fmap. done.
  - intros c Hc Hfail [_ Hdead]%elem_of_discard_all. apply Hdead.
    apply list_elem_of_filter. split; [done | by apply elem_of_elements].
  - intros c [Hc Hdead]%elem_of_discard_all.
    apply elem_of_after_meanwhile in Hc as [Hc|(c0 & Hc0 & Hconn)].
    + left. split; [done|]. destruct (delivered (net c)) eqn:Hd; [done|].
      exfalso. apply Hdead. apply list_elem_of_filter.
      split; [done | by apply elem_of_elements].
    + right. exists c0. split; [by apply elem_of_elements | done].
  - intros Hquiet c. rewrite elem_of_discard_all, after_meanwhile_quiet.
    + rewrite list_elem_of_filter, elem_of_elements.
      destruct (delivered (net c)); split; intros; intuition congruence.
    + intros c0 Hc0. apply Hquiet. by apply elem_of_elements.
Qed.

End Broadcast.

Section Runs.
Context `{Platform}.

(** The event does not register client [c]. *)
Definition quiet_for (c : client) (e : event) : Prop :=
  match e with
  | UIConnect c' => c' <> c
  | Frame _ net _ => forall c0, Connect c ∉ meanwhile (net c0)
  | _ => True
  end.

(** The event takes client [c] out of the set: its connection closes, or a
    frame is broadcast and the send to it fails. *)
Definition unregisters (st : state) (c : client) (e : event) : Prop :=
  match e with
  | UIDisconnect c' => c' = c
  | Frame data net _ =>
      (exists d, data = VDict d) /\ c ∈ ui_clients st /\ delivered (net c) = false
  | _ => False
  end.

Lemma process_imu_data_Ok st data st' d :
  process_imu_data st data = Ok (st', d) ->
  d = data /\ (exists m, data = VDict m)
  /\ ui_clients st' = ui_clients st /\ files st' = files st
  /\ recording st' = recording st /\ csv_writer st' = csv_writer st
  /\ csv_file st' = csv_file st /\ current_session st' = current_session st
  /\ last_processed st' = data.
Proof.
  unfold process_imu_data. destruct data; try done. simpl.
  intros [= <- <-]. repeat split; try done. by eexists.
Qed.

Lemma process_imu_data_dict st (m : gmap string pyval) :
  exists st', process_imu_data st (VDict m) = Ok (st', VDict m).
Proof. unfold process_imu_data. simpl. by eexists. Qed.

Lemma record_frame_fields st d io_ok :
  ui_clients (record_frame st d io_ok) = ui_clients st
  /\ recording (record_frame st d io_ok) = recording st
  /\ csv_writer (record_frame st d io_ok) = csv_writer st
  /\ csv_file (record_frame st d io_ok) = csv_file st
  /\ current_session (record_frame st d io_ok) = current_session st.
Proof. unfold record_frame. by repeat case_match. Qed.

Lemma handle_frame_Ok st data net io_ok st' log :
  handle_frame st data net io_ok = (st', Ok log) ->
  exists st1,
    process_imu_data st data = Ok (st1, data)
    /\ log = (publish (ui_clients st) net).2
    /\ st' = record_frame (set_clients st1 (publish (ui_clients st) net).1) data io_ok.
Proof.
  unfold handle_frame.
  destruct (process_imu_data st data) as [[st1 d]|e] eqn:Hp; [|done].
  apply process_imu_data_Ok in Hp as Hfacts.
  destruct Hfacts as (-> & _ & Hc & _). rewrite Hc.
  destruct (publish (ui_clients st) net) as [clients log'] eqn:Hpub.
  intros [= <- <-]. by exists st1.
Qed.

Lemma handle_frame_Raise st data net io_ok st' e :
  handle_frame st data net io_ok = (st', Raise e) -> st' = st.
Proof.
  unfold handle_frame.
  destruct (process_imu_data st data) as [[st1 d]|e'] eqn:Hp.
  - by destruct (publish (ui_clients st1) net).
  - by intros [= <- _].
Qed.

Lemma step_clients st e :
  ui_clients (step st e).1
  = match e with
    | UIConnect c => {[c]} ∪ ui_clients st
    | UIDisconnect c => ui_clients st ∖ {[c]}
    | Frame data net io_ok =>
        match data with
        | VDict _ => (publish (ui_clients st) net).1
        | _ => ui_clients st
        end
    | _ => ui_clients st
    end.
Proof.
  destruct e as [c|c|rt date ts start io| |data net io_ok]; simpl; try done.
  - unfold start_recording. by destruct io.
  - destruct (handle_frame st data net io_ok) as [st' [log|e]] eqn:Hh; simpl.
    + apply handle_frame_Ok in Hh as (st1 & Hp & -> & ->).
      apply process_imu_data_Ok in Hp as (_ & [m ->] & _).
      by destruct (record_frame_fields
                     (set_clients st1 (publish (ui_clients st) net).1) (VDict m) io_ok)
        as (-> & _).
    + apply handle_frame_Raise in Hh as Hst. subst st'.
      destruct data; try done.
      destruct (process_imu_data_dict st d) as [st1 Hp].
      unfold handle_frame in Hh. rewrite Hp in Hh.
      by destruct (publish (ui_clients st1) net).
Qed.

Lemma step_log st e :
  (step st e).2
  = match e with
    | Frame (VDict _) net _ => (publish (ui_clients st) net).2
    | _ => []
    end.
Proof.
  destruct e as [c|c|rt date ts start io| |data net io_ok]; simpl; try done.
  destruct (handle_frame st data net io_ok) as [st' [log|e]] eqn:Hh; simpl.
  - apply handle_frame_Ok in Hh as (st1 & Hp & -> & ->).
    by apply process_imu_data_Ok in Hp as (_ & [m ->] & _).
  - destruct data; try done.
    destruct (process_imu_data_dict st d) as [st1 Hp].
    unfold handle_frame in Hh. rewrite Hp in Hh.
    by destruct (publish (ui_clients st1) net).
Qed.

(** A client which is not registered and does not connect is sent nothing. *)
Lemma step_absent st e c :
  c ∉ ui_clients st -> quiet_for c e ->
  c ∉ ui_clients (step st e).1 /\ c ∉ (step st e).2.*1.
Proof.
  intros Hc Hq. rewrite step_clients, step_log.
  destruct e as [c'|c'|rt date ts start io| |data net io_ok]; simpl in *;
    try (split; [set_solver | apply not_elem_of_nil]).
  destruct data; try (split; [done | apply not_elem_of_nil]).
  destruct (publish_outcome (ui_clients st) net) as (Hlog & _ & _ & Hafter).
  split.
  - intros [[? _]|(c0 & _ & Hconn)]%Hafter; [done | by apply (Hq c0)].
  - rewrite Hlog. by rewrite elem_of_elements.
Qed.

Lemma run_cons st e events :
  run st (e :: events)
  = ((run (step st e).1 events).1, (step st e).2 :: (run (step st e).1 events).2).
Proof.
  simpl. destruct (step st e) as [st1 log]. simpl.
  by destruct (run st1 events).
Qed.

Lemma run_absent st events c :
  c ∉ ui_clients st -> Forall (quiet_for c) events ->
  forall log, log ∈ (run st events).2 -> c ∉ log.*1.
Proof.
  revert st. induction events as [|e events IH]; intros st Hc Hq log Hlog.
  - by apply elem_of_nil in Hlog.
  - apply Forall_cons in Hq as [Hqe Hq]. rewrite run_cons in Hlog. simpl in Hlog.
    destruct (step_absent st e c Hc Hqe) as [Hc' Hnolog].
    apply elem_of_cons in Hlog as [->|Hlog]; [done|].
    by apply (IH (step st e).1).
Qed.

(** X5: once a client is taken out of the set, because its connection closes
    or because a send to it fails during a broadcast, no later frame is sent
    to it for as long as it does not connect again. *)
Theorem removed_client_gets_no_later_frame (st : state) (e : event)
    (events : list event) (c : client) :
  unregisters st c e -> Forall (quiet_for c) events ->
  forall log, log ∈ (run (step st e).1 events).2 -> c ∉ log.*1.
Proof.
  intros Hun Hq. apply run_absent; [|done].
  rewrite step_clients.
  destruct e as [c'|c'|rt date ts start io| |data net io_ok]; simpl in Hun; try done.
  - subst c'. set_solver.
  - destruct Hun as ([d ->] & Hc & Hfail).
    destruct (publish_outcome (ui_clients st) net) as (_ & _ & Hdead & _).
    by apply Hdead.
Qed.

(** C4: every broadcast of a frame (lines 201-208) attempts each client
    registered when it starts exactly once, each with its own outcome,
    whatever happens to the others; a client whose send fails is not
    registered when the broadcast ends; and a client which is not
    registered, after a broadcast or after its connection closed, is sent no
    later frame for as long as it does not connect again. *)
Theorem broadcast_attempts_every_subscriber_once (st : state)
    (d : gmap string pyval) (net : client -> send_outcome) (io_ok : bool) :
  let sent := (step st (Frame (VDict d) net io_ok)).2 in
  let st' := (step st (Frame (VDict d) net io_ok)).1 in
  sent.*1 = elements (ui_clients st)
  /\ NoDup sent.*1
  /\ (forall c, c ∈ ui_clients st -> (c, delivered (net c)) ∈ sent)
  /\ (forall c b, (c, b) ∈ sent -> b = delivered (net c))
  /\ (forall c, c ∈ ui_clients st -> delivered (net c) = false -> c ∉ ui_clients st')
  /\ (forall c events, c ∉ ui_clients st' -> Forall (quiet_for c) events ->
        forall log, log ∈ (run st' events).2 -> c ∉ log.*1)
  /\ (forall c events, Forall (quiet_for c) events ->
        forall log, log ∈ (run (step st (UIDisconnect c)).1 events).2 -> c ∉ log.*1).
Proof.
  intros sent st'. subst sent st'. rewrite step_log, step_clients.
  destruct (publish_outcome (ui_clients st) net) as (Hlog & Hown & Hdead & _).
  split_and!; try done.
  - rewrite Hlog. apply NoDup_elements.
  - intros c Hc. rewrite publish_spec. simpl.
    apply list_elem_of_fmap. exists c. split; [done | by apply elem_of_elements].
  - intros c events Hc Hq. apply run_absent; [|done]. by rewrite step_clients.
  - intros c events Hq. apply run_absent; [|done].
    rewrite step_clients. set_solver.
Qed.

End Runs.

(** Two dashboards; the network fails the sends to the first one. *)
Definition two_dashboards : state := set_clients initial_state {[1; 2]}.

Definition failing_first (c : client) : send_outcome :=
  {| delivered := negb (c =? 1); meanwhile := [] |}.

Definition reliable (c : client) : send_outcome :=
  {| delivered := true; meanwhile := [] |}.

Lemma removed_client_gets_no_later_frame_witness :
  Forall (fun log : list (client * bool) => 1 ∉ log.*1)
    (run (step two_dashboards (Frame (VDict ∅) failing_first true)).1
         [Frame (VDict ∅) reliable true; Frame (VDict ∅) reliable true]).2.
Proof.
  apply Forall_forall. intros log Hlog.
  apply (removed_client_gets_no_later_frame two_dashboards
           (Frame (VDict ∅) failing_first true)
           [Frame (VDict ∅) reliable true; Frame (VDict ∅) reliable true] 1);
    [| |exact Hlog].
  - split; [by eexists|]. split; [|reflexivity].
    apply (bool_decide_unpack _). vm_compute. exact I.
  - repeat constructor; intros c0; simpl; apply not_elem_of_nil.
Defined.

(** ** The recording session *)

Section Recording.
Context `{Platform}.

(** The row [csv_row] writes for a frame which is a dictionary. *)
Definition row_of (d : gmap string pyval) : row :=
  [default (VStr "") (d !! "date"); default (VStr "") (d !! "time");
   default (VInt 0) (d !! "timestamp_ms");
   default (VInt 0) (d !! "ax_g"); default (VInt 0) (d !! "ay_g");
   default (VInt 0) (d !! "az_g");
   default (VInt 0) (d !! "gx_dps"); default (VInt 0) (d !! "gy_dps");
   default (VInt 0) (d !! "gz_dps");
   default (VInt 0) (d !! "magnitude");
   default (VInt 0) (d !! "mean_magnitude");
   default (VInt 0) (d !! "rms_magnitude")].

(** What may happen between [/start] and [/stop] in the runs considered:
    dashboards come and go, and frames which are non-empty dictionaries
    arrive and are written without an I/O error. *)
Definition session_event (e : event) : Prop :=
  match e with
  | UIConnect _ | UIDisconnect _ => True
  | Frame data _ io_ok => io_ok = true /\ exists d, data = VDict d /\ d <> ∅
  | Start _ _ _ _ _ | Stop => False
  end.

(** The frames of a run, in order. *)
Definition frame_dicts (events : list event) : list (gmap string pyval) :=
  omap (fun e => match e with Frame (VDict d) _ _ => Some d | _ => None end) events.

Lemma csv_row_dict (d : gmap string pyval) : csv_row (VDict d) = Ok (row_of d).
Proof. reflexivity. Qed.

Lemma truthy_dict (d : gmap string pyval) : d <> ∅ -> truthy (VDict d) = true.
Proof.
  intros Hd. simpl. apply negb_true_iff, Nat.eqb_neq.
  by apply map_size_non_empty_iff.
Qed.

(** The session in progress: its metadata, its file and the rows so far. *)
Definition in_session (st : state) (meta : gmap string pyval) (path : string)
    (rows : list row) : Prop :=
  recording st = true /\ csv_writer st = Some path
  /\ current_session st = meta /\ files st !! path = Some rows.

Lemma step_in_session st e meta path rows :
  in_session st meta path rows -> session_event e ->
  in_session (step st e).1 meta path (rows ++ (row_of <$> frame_dicts [e])).
Proof.
  intros (Hrec & Hw & Hm & Hf) He.
  destruct e as [c|c|rt date ts start io| |data net io_ok]; simpl in He; try done.
  - simpl. by rewrite app_nil_r.
  - simpl. by rewrite app_nil_r.
  - destruct He as (-> & d & -> & Hd).
    simpl. destruct (process_imu_data_dict st d) as [st1 Hp].
    unfold handle_frame. rewrite Hp.
    apply process_imu_data_Ok in Hp as (_ & _ & Hc1 & Hf1 & Hr1 & Hw1 & _ & Hm1 & _).
    destruct (publish (ui_clients st1) net) as [clients log]. simpl.
    pose proof (truthy_dict d Hd) as Htruthy.
    unfold in_session, record_frame. simpl in *.
    rewrite Hw1, Hw, Hr1, Hrec, Htruthy. simpl. rewrite Hf1, Hf. simpl.
    repeat split; try done; try congruence.
    by rewrite lookup_insert_eq.
Qed.

Lemma run_in_session st events meta path rows :
  in_session st meta path rows -> Forall session_event events ->
  in_session (run st events).1 meta path (rows ++ (row_of <$> frame_dicts events)).
Proof.
  revert st rows. induction events as [|e events IH]; intros st rows Hin Hall.
  - simpl. by rewrite app_nil_r.
  - apply Forall_cons in Hall as [He Hall]. rewrite run_cons. cbn [fst].
    pose proof (IH _ _ (step_in_session st e meta path rows Hin He) Hall) as Hrun.
    assert (frame_dicts (e :: events) = frame_dicts [e] ++ frame_dicts events) as ->.
    { unfold frame_dicts. by rewrite <- omap_app. }
    by rewrite fmap_app, app_assoc.
Qed.

(** C5: a recording from [/start] to [/stop].  When, in between, every frame
    received is a non-empty dictionary and is written without an I/O error,
    the file holds the header row followed by one row per frame, in the order
    of arrival, the cells of a row being the frame's twelve fields in the
    order of the header ([0], or the empty string for the date and the time,
    where the frame lacks a field); [/stop] returns the name of the file and
    leaves the server idle. *)
Theorem recording_writes_header_then_one_row_per_frame (st : state)
    (reading_type date ts start_time : string) (events : list event) :
  Forall session_event events ->
  let started := start_recording st reading_type date ts start_time StartOk in
  let stopped := stop_recording (run started.1 events).1 in
  exists path,
    started.2 = Ok path
    /\ stopped.2 = VStr path
    /\ recording stopped.1 = false
    /\ csv_writer stopped.1 = None
    /\ files stopped.1 !! path = Some (header :: (row_of <$> frame_dicts events))
    /\ length (header :: (row_of <$> frame_dicts events))
       = 1 + length (frame_dicts events)
    /\ forall i d, frame_dicts events !! i = Some d ->
         exists r, (header :: (row_of <$> frame_dicts events)) !! (S i) = Some r
           /\ r !! 2 = Some (default (VInt 0) (d !! "timestamp_ms")).
Proof.
  intros Hall started stopped.
  set (path := path_join RECORDINGS_DIR
                 (date +:+ "_" +:+ safe_type reading_type +:+ "_" +:+ ts +:+ ".csv")).
  set (meta := (<["start_time" := VStr start_time]> (<["filename" := VStr path]> (
                <["date" := VStr date]> (<["reading_type" := VStr reading_type]> ∅)))
                : gmap string pyval)).
  assert (in_session started.1 meta path [header]) as Hin.
  { repeat split; try done. simpl. by rewrite lookup_insert_eq. }
  pose proof (run_in_session _ events _ _ _ Hin Hall) as (Hrec & Hw & Hm & Hf).
  exists path. subst stopped.
  set (st2 := (run started.1 events).1) in *.
  unfold stop_recording. cbn [fst snd recording csv_writer files].
  rewrite Hm. repeat split; try done.
  - simpl. by rewrite length_fmap.
  - intros i d Hd. exists (row_of d). simpl. split; [|done].
    by rewrite list_lookup_fmap, Hd.
Qed.

End Recording.

(** A short session: two frames, a dashboard connecting in between. *)
Definition short_session : list event :=
  [Frame (VDict (<["timestamp_ms" := VInt 7]> ∅)) reliable true;
   UIConnect 3;
   Frame (VDict (<["magnitude" := VFloat 1]> (<["timestamp_ms" := VInt 9]> ∅)))
     reliable true].

Lemma recording_writes_header_then_one_row_per_frame_witness :
  files (stop_recording
           (run (start_recording initial_state "walk fast" "2024-01-01"
                   "20240101_120000" "2024-01-01T12:00:00" StartOk).1
                short_session).1).1
    !! "../recordings/2024-01-01_walk_fast_20240101_120000.csv"
  = Some [header;
          [VStr ""; VStr ""; VInt 7; VInt 0; VInt 0; VInt 0; VInt 0; VInt 0;
           VInt 0; VInt 0; VInt 0; VInt 0];
          [VStr ""; VStr ""; VInt 9; VInt 0; VInt 0; VInt 0; VInt 0; VInt 0;
           VInt 0; VFloat 1; VInt 0; VInt 0]].
Proof.
  assert (Forall session_event short_session) as Hall.
  { repeat constructor; eexists; (split; [reflexivity|]); apply insert_non_empty. }
  destruct (recording_writes_header_then_one_row_per_frame initial_state
              "walk fast" "2024-01-01" "20240101_120000" "2024-01-01T12:00:00"
              short_session Hall) as (path & Hpath & _ & _ & _ & Hfiles & _).
  vm_compute in Hpath. injection Hpath as <-. exact Hfiles.
Defined.

(** ** The spectrum and the robustness of the analysis *)

Section Robustness.
Context `{Platform}.

Lemma py_slice_last_app {A} (n : nat) (older recent : list A) :
  0 < n -> length recent = n -> py_slice_last n (older ++ recent) = recent.
Proof.
  intros Hn Hlen. unfold py_slice_last. destruct n as [|n]; [lia|].
  rewrite length_app, Hlen.
  replace (length older + S n - S n) with (length older) by lia.
  by rewrite drop_app_length.
Qed.

(** X7: the spectrum is computed from the last [fft_window] samples only:
    whatever the window holds before them does not change the result. *)
Theorem compute_fft_reads_last_window (self : MPU6050Reader)
    (older recent : list float) :
  0 < fft_window self -> length recent = fft_window self ->
  compute_fft self (older ++ recent) = compute_fft self recent.
Proof.
  intros Hn Hlen. unfold compute_fft.
  rewrite length_app, Hlen.
  destruct (Nat.ltb_spec (length older + fft_window self) (fft_window self)); [lia|].
  destruct (Nat.ltb_spec (fft_window self) (fft_window self)); [lia|].
  rewrite py_slice_last_app by done.
  unfold py_slice_last. destruct (fft_window self) as [|n] eqn:Hw; [lia|].
  rewrite Hlen. replace (S n - S n) with 0 by lia. done.
Qed.

(** A value which is not a number. *)
Definition non_numeric (v : pyval) : Prop :=
  match v with
  | VNone | VStr _ | VList _ | VDict _ => True
  | VBool _ | VInt _ | VFloat _ => False
  end.

Lemma truediv_float_non_numeric (v : pyval) (d : float) :
  non_numeric v -> truediv_float v d = Raise TypeError.
Proof. by destruct v. Qed.

Lemma convert_non_numeric self raw_data :
  non_numeric (ax_raw raw_data) \/ non_numeric (ay_raw raw_data)
  \/ non_numeric (az_raw raw_data) \/ non_numeric (gx_raw raw_data)
  \/ non_numeric (gy_raw raw_data) \/ non_numeric (gz_raw raw_data) ->
  raises (convert self raw_data) = true.
Proof.
  intros Hbad. unfold convert, convert_to_g, convert_to_dps.
  destruct (strftime_local (timestamp_ms raw_data) "%Y-%m-%d"); simpl; [|done].
  destruct (strftime_local (timestamp_ms raw_data) "%H:%M:%S.%f"); simpl; [|done].
  destruct (truediv_float (ax_raw raw_data) _) eqn:E1; simpl; [|done].
  destruct (truediv_float (ay_raw raw_data) _) eqn:E2; simpl; [|done].
  destruct (truediv_float (az_raw raw_data) _) eqn:E3; simpl; [|done].
  destruct (truediv_float (gx_raw raw_data) _) eqn:E4; simpl; [|done].
  destruct (truediv_float (gy_raw raw_data) _) eqn:E5; simpl; [|done].
  destruct (truediv_float (gz_raw raw_data) _) eqn:E6; simpl; [|done].
  destruct Hbad as [Hb|[Hb|[Hb|[Hb|[Hb|Hb]]]]];
    apply (truediv_float_non_numeric _ (ACCEL_SCALE self)) in Hb as Hg;
    apply (truediv_float_non_numeric _ (GYRO_SCALE self)) in Hb as Hd;
    congruence.
Qed.

(** X8: a sample one of whose six axis values is not a number ([None], a
    string, a list or a dictionary, which the JSON branch of the decoder lets
    through) makes [process_data] raise before it touches the reader: the
    four buffers and the configuration are those of before the call. *)
Theorem process_data_rejects_non_numeric (self : MPU6050Reader)
    (raw_data : raw_sample) :
  non_numeric (ax_raw raw_data) \/ non_numeric (ay_raw raw_data)
  \/ non_numeric (az_raw raw_data) \/ non_numeric (gx_raw raw_data)
  \/ non_numeric (gy_raw raw_data) \/ non_numeric (gz_raw raw_data) ->
  exists e, process_data self raw_data = (self, Raise e).
Proof.
  intros Hbad%(convert_non_numeric self). unfold process_data.
  destruct (convert self raw_data) as [c|e]; [done|]. by exists e.
Qed.

(** X9: as long as the window holds a sample whose magnitude cannot be
    computed (its square overflows), [process_data] raises on every call and
    returns no frame, whatever the new sample is. *)
Theorem unmeasurable_sample_silences_frames (self : MPU6050Reader)
    (samples : list raw_sample) (raw_data : raw_sample) (e : entry) :
  e ∈ keep_last (buffer_size self) (pushed self (samples ++ [raw_data])) ->
  raises (magnitude (e_ax e) (e_ay e) (e_az e)) = true ->
  raises (process_data (feed (empty_window self) samples) raw_data).2 = true.
Proof.
  intros He Hraise.
  pose proof (feed_empty_window self (samples ++ [raw_data])) as Hcols.
  pose proof (feed_magnitudes self (samples ++ [raw_data])) as Hmags.
  rewrite feed_snoc in Hcols, Hmags.
  unfold process_data in *.
  destruct (convert (feed (empty_window self) samples) raw_data) as [c|err];
    [|done].
  cbn [fst snd] in *.
  set (self' := push_sample (feed (empty_window self) samples) c
                  (timestamp_ms raw_data)) in *.
  unfold analyse.
  destruct (magnitude (ax_g c) (ay_g c) (az_g c)) as [m|]; simpl; [|done].
  assert (raises (magnitudes self') = true) as Hm.
  { rewrite Hmags. apply list_elem_of_lookup in He as [i Hi].
    by apply (mapM_raises _ _ i e). }
  unfold add_means. destruct Hcols as (Hx & _).
  destruct (ax_buffer self') as [|x l] eqn:Hbuf.
  - apply list_elem_of_lookup in He as [i Hi].
    symmetry in Hx. apply fmap_nil_inv in Hx. by rewrite Hx in Hi.
  - by destruct (magnitudes self').
Qed.

End Robustness.

Lemma compute_fft_reads_last_window_witness :
  compute_fft new_reader ([1%float; 2%float] ++ repeat 0%float 128)
  = compute_fft new_reader (repeat 0%float 128).
Proof.
  apply compute_fft_reads_last_window; [vm_compute; lia | reflexivity].
Defined.

(** A sample whose x count is a string. *)
Definition garbled_sample : raw_sample := {|
  timestamp_ms := VInt 0;
  ax_raw := VStr "12"; ay_raw := VInt 0; az_raw := VInt 0;
  gx_raw := VInt 0; gy_raw := VInt 0; gz_raw := VInt 0;
|}.

Lemma process_data_rejects_non_numeric_witness :
  exists e, process_data new_reader garbled_sample = (new_reader, Raise e).
Proof. apply process_data_rejects_non_numeric. left. exact I. Defined.

(** After a sample of [2 ^ 700] g, whose square overflows, a sample at rest
    gives no frame. *)
Lemma unmeasurable_sample_silences_frames_witness :
  raises (process_data (feed (empty_window new_reader) [tilted (2 ^ 714)])
            still_sample).2 = true.
Proof.
  eapply (unmeasurable_sample_silences_frames new_reader [tilted (2 ^ 714)]
            still_sample).
  - apply list_elem_of_lookup. exists 0. vm_compute. reflexivity.
  - vm_compute. reflexivity.
Defined.

(** ** The buffers of the server *)

Section ServerBuffers.
Context `{Platform}.

(** The channels of [analysis_data['buffers']], each with the field of the
    frame it is fed from. *)
Definition channel_sources : list (string * string) :=
  [("timestamps", "timestamp_ms"); ("ax", "ax_g"); ("ay", "ay_g"); ("az", "az_g");
   ("gx", "gx_dps"); ("gy", "gy_dps"); ("gz", "gz_dps")].

Lemma limit_buffer_keep_last (l : list pyval) : limit_buffer l = keep_last 500 l.
Proof.
  unfold limit_buffer, max_buffer, keep_last, py_slice_last.
  destruct (Nat.ltb_spec 500 (length l)) as [Hlt|Hle].
  - reflexivity.
  - replace (length l - 500) with 0 by lia. reflexivity.
Qed.

Lemma process_imu_data_buffers st (d : gmap string pyval) st' data :
  process_imu_data st (VDict d) = Ok (st', data) ->
  Forall (fun '(chan, key) =>
            buffers st' !! chan
            = Some (keep_last 500 (default [] (buffers st !! chan)
                                   ++ [default (VInt 0) (d !! key)])))
         channel_sources.
Proof.
  unfold process_imu_data. simpl. intros [= <- _]. simpl.
  unfold channel_sources.
  repeat (apply Forall_cons; split;
          [rewrite lookup_fmap; unfold buffer_append;
           rewrite ?lookup_insert_ne by done; rewrite lookup_insert_eq; simpl;
           rewrite ?lookup_insert_ne by done; by rewrite limit_buffer_keep_last|]).
  apply Forall_nil_2.
Qed.

Lemma step_buffers st e :
  buffers (step st e).1
  = match e with
    | Frame (VDict d) _ _ =>
        match process_imu_data st (VDict d) with
        | Ok (st', _) => buffers st'
        | Raise _ => buffers st
        end
    | _ => buffers st
    end.
Proof.
  destruct e as [c|c|rt date ts start io| |data net io_ok]; simpl; try done.
  - unfold start_recording. by destruct io.
  - unfold handle_frame. destruct data; try done.
    unfold process_imu_data. simpl.
    destruct (publish _ net) as [cl lg]. simpl.
    unfold record_frame. simpl. by repeat case_match.
Qed.

(** The buffers after a run from a state which holds the values of the
    frames [seen]. *)
Lemma run_buffers st (events : list event) (seen : list (gmap string pyval)) :
  Forall (fun '(chan, key) =>
            buffers st !! chan
            = Some (keep_last 500
                      ((fun d => default (VInt 0) (d !! key)) <$> seen)))
         channel_sources ->
  Forall (fun '(chan, key) =>
            buffers (run st events).1 !! chan
            = Some (keep_last 500
                      ((fun d => default (VInt 0) (d !! key))
                         <$> (seen ++ frame_dicts events))))
         channel_sources.
Proof.
  revert st seen. induction events as [|e events IH]; intros st seen Hst.
  - simpl. by rewrite app_nil_r.
  - rewrite run_cons. cbn [fst].
    assert (frame_dicts (e :: events) = frame_dicts [e] ++ frame_dicts events) as ->.
    { unfold frame_dicts. by rewrite <- omap_app. }
    rewrite app_assoc. apply IH. rewrite step_buffers.
    destruct e as [c|c|rt date ts start io| |data net io_ok];
      try (simpl; by rewrite app_nil_r).
    destruct data; try (simpl; by rewrite app_nil_r).
    destruct (process_imu_data_dict st d) as [st1 Hp]. rewrite Hp.
    apply process_imu_data_buffers in Hp.
    rewrite Forall_forall in *. intros [chan key] Hin.
    specialize (Hp _ Hin). specialize (Hst _ Hin). simpl in *.
    rewrite Hp, Hst. simpl. f_equal.
    rewrite fmap_app. simpl. apply keep_last_app.
Qed.

Lemma initial_buffers_empty :
  Forall (fun '(chan, key) =>
            buffers initial_state !! chan
            = Some (keep_last 500
                      ((fun d : gmap string pyval => default (VInt 0) (d !! key)) <$> [])))
         channel_sources.
Proof.
  unfold channel_sources. repeat (apply Forall_cons; split; [reflexivity|]).
  apply Forall_nil_2.
Qed.

(** X10: the server keeps, for each of the seven channels, the values of
    the last 500 frames received (0 where a frame lacks the field), in the
    order of arrival, whatever else happens between the frames. *)
Theorem server_buffers_keep_last_frames (events : list event) :
  Forall (fun '(chan, key) =>
            buffers (run initial_state events).1 !! chan
            = Some (keep_last 500
                      ((fun d => default (VInt 0) (d !! key)) <$> frame_dicts events)))
         channel_sources.
Proof. apply (run_buffers initial_state events []), initial_buffers_empty. Qed.





End ServerBuffers.

(** ** Frames which are not recorded *)

Section Sessions.
Context `{Platform}.

(** The frame an event appends to the file of a session in progress: a
    message which decodes to a non-empty dictionary and whose row
    [writerow] accepts. *)
Definition recorded (e : event) : option (gmap string pyval) :=
  match e with
  | Frame (VDict d) _ true => if size d =? 0 then None else Some d
  | _ => None
  end.

Definition is_start (e : event) : bool :=
  match e with Start _ _ _ _ _ => true | _ => false end.

Definition is_stop (e : event) : bool :=
  match e with Stop => true | _ => false end.

(** What an event other than [/start] and [/stop] does to the recording. *)
Lemma step_recording st e :
  is_start e = false -> is_stop e = false ->
  recording (step st e).1 = recording st
  /\ csv_writer (step st e).1 = csv_writer st
  /\ current_session (step st e).1 = current_session st
  /\ files (step st e).1
     = match recorded e, csv_writer st with
       | Some d, Some path =>
           if recording st
           then <[path := default [] (files st !! path) ++ [row_of d]]> (files st)
           else files st
       | _, _ => files st
       end.
Proof.
  intros Hstart Hstop.
  destruct e as [c|c|rt date ts start io| |data net io_ok]; try done.
  simpl. unfold handle_frame.
  destruct data; try (simpl; by destruct (csv_writer st)).
  unfold process_imu_data. simpl.
  destruct (publish _ net) as [cl lg]. simpl.
  unfold record_frame. simpl.
  destruct (csv_writer st) as [path|] eqn:Hw, (recording st) eqn:Hr, io_ok,
    (size d =? 0); simpl; rewrite ?Hw, ?Hr; done.
Qed.

Lemma step_stop st : step st Stop = ((stop_recording st).1, []).
Proof. reflexivity. Qed.

Lemma step_csv_file st e :
  is_start e = false -> is_stop e = false -> csv_file (step st e).1 = csv_file st.
Proof.
  intros Hstart Hstop.
  destruct e as [c|c|rt date ts start io| |data net io_ok]; try done.
  simpl. destruct (handle_frame st data net io_ok) as [st' [log|e]] eqn:Hh; simpl.
  - apply handle_frame_Ok in Hh as (st1 & Hp & _ & ->).
    apply process_imu_data_Ok in Hp as (_ & _ & _ & _ & _ & _ & Hfile & _).
    destruct (record_frame_fields (set_clients st1 (publish (ui_clients st) net).1)
                data io_ok) as (_ & _ & _ & -> & _).
    done.
  - by apply handle_frame_Raise in Hh as ->.
Qed.

(** X11: while the server is idle, nothing is written.  From a state whose
    [recording] flag is off and which holds no file object (the initial
    state, or the state [/stop] leaves), no sequence of frames, dashboard
    connections and [/stop] requests changes any file; the flag stays off
    and no file object appears until a [/start]. *)
Theorem idle_server_writes_nothing (st : state) (events : list event) :
  recording st = false ->
  csv_file st = None ->
  Forall (fun e => is_start e = false) events ->
  files (run st events).1 = files st
  /\ recording (run st events).1 = false
  /\ csv_file (run st events).1 = None.
Proof.
  revert st. induction events as [|e events IH]; intros st Hrec Hfile Hall; [done|].
  apply Forall_cons in Hall as [He Hall]. rewrite run_cons. cbn [fst].
  destruct (is_stop e) eqn:Hstop.
  - destruct e; try done. rewrite step_stop. cbn [fst].
    destruct (IH (stop_recording st).1 eq_refl eq_refl Hall) as (Hf & Hr & Hc).
    by rewrite Hf, Hr, Hc.
  - destruct (step_recording st e He Hstop) as (Hr & _ & _ & Hf).
    pose proof (step_csv_file st e He Hstop) as Hc.
    rewrite Hrec in Hr, Hf. rewrite Hfile in Hc.
    destruct (IH _ Hr Hc Hall) as (Hf' & Hr' & Hc'). rewrite Hf', Hr', Hc', Hf.
    by repeat case_match.
Qed.

(** X12: a session in progress skips what it cannot record and goes on.
    The events of a run are the messages the handlers read.  After
    [/start], whatever messages are read before the next [/start] or
    [/stop], the session is still active and its file holds the header
    followed by the rows of exactly the messages which are non-empty
    dictionaries and whose row [writerow] accepts, in the order of arrival.
    Nothing is recorded of a message which is not a dictionary (it ends the
    handler which read it with an exception), of an empty dictionary, or of
    a row on which [writerow] raises (the exception is caught).  Every
    [flush] is taken to succeed (see [start_io]). *)
Theorem session_skips_unwritable_frames (st : state)
    (reading_type date ts start_time : string) (events : list event) :
  Forall (fun e => is_start e = false /\ is_stop e = false) events ->
  let started := start_recording st reading_type date ts start_time StartOk in
  let final := (run started.1 events).1 in
  exists path,
    started.2 = Ok path
    /\ recording final = true
    /\ csv_writer final = Some path
    /\ current_session final !! "filename" = Some (VStr path)
    /\ files final !! path = Some (header :: (row_of <$> omap recorded events)).
Proof.
  intros Hall started final.
  set (path := path_join RECORDINGS_DIR
                 (date +:+ "_" +:+ safe_type reading_type +:+ "_" +:+ ts +:+ ".csv")).
  exists path. split; [done|].
  assert (forall events st0 rows,
    Forall (fun e => is_start e = false /\ is_stop e = false) events ->
    recording st0 = true -> csv_writer st0 = Some path ->
    files st0 !! path = Some rows ->
    recording (run st0 events).1 = true
    /\ csv_writer (run st0 events).1 = Some path
    /\ current_session (run st0 events).1 = current_session st0
    /\ files (run st0 events).1 !! path
       = Some (rows ++ (row_of <$> omap recorded events))) as Hgen.
  { clear. induction events as [|e events IH]; intros st0 rows Hall Hrec Hw Hf.
    - simpl. by rewrite app_nil_r.
    - apply Forall_cons in Hall as [[Hstart Hstop] Hall]. rewrite run_cons. cbn [fst].
      destruct (step_recording st0 e Hstart Hstop) as (Hr1 & Hw1 & Hm1 & Hf1).
      rewrite Hrec in Hr1, Hf1. rewrite Hw in Hw1, Hf1.
      assert (omap recorded (e :: events)
              = from_option (fun d => [d]) [] (recorded e) ++ omap recorded events)
        as -> by (csimpl; by destruct (recorded e)).
      destruct (recorded e) as [d|].
      + destruct (IH (step st0 e).1 (rows ++ [row_of d]) Hall Hr1 Hw1)
          as (? & ? & ? & Hfiles).
        { by rewrite Hf1, Hf, lookup_insert_eq. }
        repeat split; try done; try congruence.
        rewrite Hfiles. simpl. by rewrite <- app_assoc.
      + destruct (IH (step st0 e).1 rows Hall Hr1 Hw1) as (? & ? & ? & Hfiles).
        { by rewrite Hf1. }
        repeat split; try done; congruence. }
  destruct (Hgen events started.1 [header] Hall eq_refl eq_refl) as (? & ? & Hm & Hf).
  { simpl. by rewrite lookup_insert_eq. }
  repeat split; try done.
  subst final. rewrite Hm. simpl. by simplify_map_eq.
Qed.

(** X13: frames are written to the file of the current writer only.  As
    long as no [/start] opens it, a file which is not the one the writer
    points to keeps its content, whatever frames arrive: the file of an
    earlier session is never appended to again. *)
Theorem frames_touch_only_the_open_file (st : state) (events : list event)
    (other : string) :
  csv_writer st <> Some other ->
  Forall (fun e => is_start e = false) events ->
  files (run st events).1 !! other = files st !! other.
Proof.
  revert st. induction events as [|e events IH]; intros st Hw Hall; [done|].
  apply Forall_cons in Hall as [He Hall]. rewrite run_cons. cbn [fst].
  destruct (is_stop e) eqn:Hstop.
  - destruct e; try done. rewrite step_stop. cbn [fst].
    by rewrite IH.
  - destruct (step_recording st e He Hstop) as (_ & Hw1 & _ & Hf).
    rewrite IH; [|congruence|done]. rewrite Hf.
    destruct (recorded e), (csv_writer st) as [path|]; try done.
    destruct (recording st); [|done].
    apply lookup_insert_ne. congruence.
Qed.

End Sessions.

(** A session with every kind of message: a frame, a message which is not a
    dictionary, a frame whose row [writerow] refuses, an empty frame, a
    frame. *)
Definition rough_session : list event :=
  [Frame (VDict (<["timestamp_ms" := VInt 7]> ∅)) reliable true;
   Frame (VList []) reliable true;
   Frame (VDict (<["timestamp_ms" := VInt 8]> ∅)) reliable false;
   Frame (VDict ∅) reliable true;
   Frame (VDict (<["timestamp_ms" := VInt 9]> ∅)) reliable true].

Lemma idle_server_writes_nothing_witness :
  files (run initial_state (rough_session ++ [Stop] ++ rough_session)).1 = ∅.
Proof.
  apply (idle_server_writes_nothing initial_state);
    [reflexivity | reflexivity | repeat constructor].
Defined.

Lemma session_skips_unwritable_frames_witness :
  files (run (start_recording initial_state "walk fast" "2024-01-01"
                "20240101_120000" "2024-01-01T12:00:00" StartOk).1
             rough_session).1
    !! "../recordings/2024-01-01_walk_fast_20240101_120000.csv"
  = Some [header;
          [VStr ""; VStr ""; VInt 7; VInt 0; VInt 0; VInt 0; VInt 0; VInt 0;
           VInt 0; VInt 0; VInt 0; VInt 0];
          [VStr ""; VStr ""; VInt 9; VInt 0; VInt 0; VInt 0; VInt 0; VInt 0;
           VInt 0; VInt 0; VInt 0; VInt 0]].
Proof.
  assert (Forall (fun e => is_start e = false /\ is_stop e = false) rough_session)
    as Hall by (repeat constructor).
  destruct (session_skips_unwritable_frames initial_state
              "walk fast" "2024-01-01" "20240101_120000" "2024-01-01T12:00:00"
              rough_session Hall) as (path & Hpath & _ & _ & _ & Hfiles).
  vm_compute in Hpath. injection Hpath as <-. exact Hfiles.
Defined.

Lemma frames_touch_only_the_open_file_witness :
  files (run (start_recording
                (run (start_recording initial_state "walk" "2024-01-01"
                        "20240101_120000" "2024-01-01T12:00:00" StartOk).1
                     rough_session).1
                "run" "2024-01-01" "20240101_120500" "2024-01-01T12:05:00" StartOk).1
             rough_session).1
    !! "../recordings/2024-01-01_walk_20240101_120000.csv"
  = Some [header;
          [VStr ""; VStr ""; VInt 7; VInt 0; VInt 0; VInt 0; VInt 0; VInt 0;
           VInt 0; VInt 0; VInt 0; VInt 0];
          [VStr ""; VStr ""; VInt 9; VInt 0; VInt 0; VInt 0; VInt 0; VInt 0;
           VInt 0; VInt 0; VInt 0; VInt 0]].
Proof.
  rewrite frames_touch_only_the_open_file.
  - vm_compute. reflexivity.
  - vm_compute. discriminate.
  - repeat constructor.
Defined.

(** ** The peaks of the spectrum *)

Section FloatOrder.

(** The comparisons of floats, by cases on the specification
    [SFcompare]. *)
Ltac sf_order :=
  change (PosDef.Pos.compare_cont Eq) with Pos.compare in *;
  repeat match goal with
         | |- context [(?a ?= ?b)%Z] => destruct (Z.compare_spec a b)
         | H : context [(?a ?= ?b)%Z] |- _ => destruct (Z.compare_spec a b)
         | |- context [(?a ?= ?b)%positive] => destruct (Pos.compare_spec a b)
         | H : context [(?a ?= ?b)%positive] |- _ => destruct (Pos.compare_spec a b)
         end; simpl in *; try done; try lia.

Ltac sf_case a := destruct a as [[]|[]| |[] ?m ?e].

Lemma SFcompare_trans a b c :
  SFcompare a b = Some Lt -> SFcompare b c = Some Lt -> SFcompare a c = Some Lt.
Proof.
  sf_case a; sf_case b; sf_case c; simpl; try done;
    intros [= Hab] [= Hbc]; f_equal; sf_order.
Qed.

Lemma SFcompare_asym a b : SFcompare a b = Some Lt -> SFcompare b a <> Some Lt.
Proof. sf_case a; sf_case b; simpl; try done; intros [= Hab] [= Hba]; sf_order. Qed.

Lemma SFcompare_Eq_sym a b : SFcompare a b = Some Eq -> SFcompare b a = Some Eq.
Proof. sf_case a; sf_case b; simpl; try done; intros [= Hab]; f_equal; sf_order. Qed.

Lemma SFcompare_Eq_Eq a b c :
  SFcompare a c = Some Eq -> SFcompare b c = Some Eq -> SFcompare a b = Some Eq.
Proof.
  sf_case a; sf_case b; sf_case c; simpl; try done;
    intros [= Hab] [= Hbc]; f_equal; sf_order.
Qed.

Lemma SFcompare_Eq_Lt a b c :
  SFcompare a c = Some Eq -> SFcompare b c = Some Lt -> SFcompare a b = Some Gt.
Proof.
  sf_case a; sf_case b; sf_case c; simpl; try done;
    intros [= Hab] [= Hbc]; f_equal; sf_order.
Qed.

Lemma ltb_compare (a b : float) :
  PrimFloat.ltb a b = true <-> SFcompare (Prim2SF a) (Prim2SF b) = Some Lt.
Proof.
  rewrite FloatAxioms.ltb_spec. unfold SFltb.
  destruct (SFcompare _ _) as [[]|]; split; (done || congruence).
Qed.

Lemma eqb_compare (a b : float) :
  PrimFloat.eqb a b = true <-> SFcompare (Prim2SF a) (Prim2SF b) = Some Eq.
Proof.
  rewrite FloatAxioms.eqb_spec. unfold SFeqb.
  destruct (SFcompare _ _) as [[]|]; split; (done || congruence).
Qed.

Lemma ltb_trans (a b c : float) :
  PrimFloat.ltb a b = true -> PrimFloat.ltb b c = true -> PrimFloat.ltb a c = true.
Proof. rewrite !ltb_compare. apply SFcompare_trans. Qed.

Lemma ltb_asym (a b : float) :
  PrimFloat.ltb a b = true -> PrimFloat.ltb b a = false.
Proof.
  intros Hab. apply not_true_is_false. revert Hab.
  rewrite !ltb_compare. apply SFcompare_asym.
Qed.

Lemma ltb_irrefl (a : float) : PrimFloat.ltb a a = false.
Proof.
  destruct (PrimFloat.ltb a a) eqn:Haa; [|done].
  by rewrite (ltb_asym _ _ Haa) in Haa.
Qed.

Lemma ltb_not_eqb (a b : float) :
  PrimFloat.ltb a b = true -> PrimFloat.eqb a b = false.
Proof.
  intros Hab. apply not_true_is_false. revert Hab.
  rewrite ltb_compare, eqb_compare. congruence.
Qed.

Lemma eqb_not_ltb (a b : float) :
  PrimFloat.eqb b a = true -> PrimFloat.ltb a b = false.
Proof.
  intros Hba. apply not_true_is_false. revert Hba.
  rewrite ltb_compare, eqb_compare. intros Hba%SFcompare_Eq_sym. congruence.
Qed.

Lemma eqb_eqb_not_ltb (a b c : float) :
  PrimFloat.eqb a c = true -> PrimFloat.eqb b c = true -> PrimFloat.ltb a b = false.
Proof.
  intros Hac Hbc. apply not_true_is_false. revert Hac Hbc.
  rewrite ltb_compare, !eqb_compare. intros Hac Hbc.
  rewrite (SFcompare_Eq_Eq _ _ _ Hac Hbc). congruence.
Qed.

Lemma eqb_ltb_not_ltb (a b c : float) :
  PrimFloat.eqb a c = true -> PrimFloat.ltb b c = true -> PrimFloat.ltb a b = false.
Proof.
  intros Hac Hbc. apply not_true_is_false. revert Hac Hbc.
  rewrite !ltb_compare, eqb_compare. intros Hac Hbc.
  rewrite (SFcompare_Eq_Lt _ _ _ Hac Hbc). congruence.
Qed.

End FloatOrder.

Section Spectrum.
Context `{Platform}.

(** In [x], the samples from [lo] to [hi] form a flat maximum: they are
    equal, and the sample before them and the sample after them are
    smaller. *)
Definition flat_maximum (x : list float) (lo hi : nat) : Prop :=
  1 <= lo /\ lo <= hi /\ hi + 1 < length x
  /\ PrimFloat.ltb (x !!! (lo - 1)) (x !!! lo) = true
  /\ (forall j, lo < j <= hi -> PrimFloat.eqb (x !!! j) (x !!! lo) = true)
  /\ PrimFloat.ltb (x !!! (hi + 1)) (x !!! lo) = true.

(** Bin [b] of the spectrum [amp] is reported when it is the middle
    (rounded down) of a flat maximum which starts after bin 1 and whose
    amplitude is at least the bar. *)
Definition spectral_peak (amp : list float) (bar : float) (b : nat) : Prop :=
  exists lo hi, 2 <= lo /\ flat_maximum amp lo hi /\ b = (lo + hi) / 2
    /\ PrimFloat.leb bar (amp !!! b) = true.

Lemma plateau_end_spec (x : list float) (i : nat) (fuel a : nat) :
  a <= plateau_end x i a fuel
  /\ (a <= length x - 1 -> plateau_end x i a fuel <= length x - 1)
  /\ (forall j, a <= j < plateau_end x i a fuel ->
        j < length x - 1 /\ PrimFloat.eqb (x !!! j) (x !!! i) = true)
  /\ (length x <= a + fuel ->
      plateau_end x i a fuel < length x - 1 ->
      PrimFloat.eqb (x !!! plateau_end x i a fuel) (x !!! i) = false).
Proof.
  revert a. induction fuel as [|fuel IH]; intros a.
  - simpl. repeat split; try lia.
  - simpl.
    destruct (Nat.ltb_spec a (length x - 1)) as [Ha|Ha]; simpl.
    + destruct (PrimFloat.eqb (x !!! a) (x !!! i)) eqn:Heq.
      * destruct (IH (S a)) as (H1 & H2 & H3 & H4).
        split; [lia|]. split; [lia|]. split.
        -- intros j Hj. destruct (decide (j = a)) as [->|]; [done|].
           apply H3. lia.
        -- intros. apply H4; lia.
      * repeat split; try lia. done.
    + repeat split; try lia.
Qed.

Lemma plateau_end_flat (x : list float) (lo hi : nat) :
  flat_maximum x lo hi -> plateau_end x lo (lo + 1) (length x) = hi + 1.
Proof.
  intros (Hlo & Hle & Hhi & Hup & Hflat & Hdown).
  destruct (plateau_end_spec x lo (length x) (lo + 1)) as (H1 & H2 & H3 & H4).
  set (e := plateau_end x lo (lo + 1) (length x)) in *.
  destruct (Nat.lt_total e (hi + 1)) as [Hlt|[Heq|Hgt]]; [|done|].
  - rewrite Hflat in H4; [|lia]. discriminate H4; lia.
  - destruct (H3 (hi + 1)) as [_ Heq]; [lia|].
    by rewrite (ltb_not_eqb _ _ Hdown) in Heq.
Qed.

(** The scan finds the flat maxima, all of them, and nothing else. *)
Lemma local_maxima_from_spec (x : list float) (fuel i : nat) :
  1 <= i -> length x <= i + fuel ->
  forall m, m ∈ local_maxima_from x i fuel
            <-> exists lo hi, i <= lo /\ flat_maximum x lo hi /\ m = (lo + hi) / 2.
Proof.
  revert i. induction fuel as [|fuel IH]; intros i Hi Hfuel m.
  - simpl. split; [by intros ?%elem_of_nil|].
    intros (lo & hi & ? & (? & ? & ? & _) & _). lia.
  - simpl. destruct (Nat.ltb_spec i (length x - 1)) as [Hin|Hout]; cycle 1.
    { split; [by intros ?%elem_of_nil|].
      intros (lo & hi & ? & (? & ? & ? & _) & _). lia. }
    destruct (PrimFloat.ltb (x !!! (i - 1)) (x !!! i)) eqn:Hup; cycle 1.
    { rewrite IH by lia. split.
      - intros (lo & hi & ? & ? & ?). exists lo, hi. split; [lia|done].
      - intros (lo & hi & Hlo & Hflat & ?). exists lo, hi. split; [|done].
        destruct (decide (lo = i)) as [->|]; [|lia].
        destruct Hflat as (_ & _ & _ & Hup' & _). congruence. }
    destruct (plateau_end_spec x i (length x) (i + 1)) as (H1 & H2 & H3 & H4).
    set (e := plateau_end x i (i + 1) (length x)) in *.
    destruct (PrimFloat.ltb (x !!! e) (x !!! i)) eqn:Hdown; cycle 1.
    { rewrite IH by lia. split.
      - intros (lo & hi & ? & ? & ?). exists lo, hi. split; [lia|done].
      - intros (lo & hi & Hlo & Hflat & ?). exists lo, hi. split; [|done].
        destruct (decide (lo = i)) as [->|]; [|lia].
        pose proof (plateau_end_flat _ _ _ Hflat) as He. fold e in He.
        destruct Hflat as (_ & _ & _ & _ & _ & Hdown').
        rewrite <- He in Hdown'. congruence. }
    assert (flat_maximum x i (e - 1)) as Hhere.
    { repeat split; try lia; try done.
      - intros j Hj. apply H3. lia.
      - by replace (e - 1 + 1) with e by lia. }
    rewrite elem_of_cons, IH by lia. split.
    + intros [->|(lo & hi & ? & ? & ?)].
      * exists i, (e - 1). done.
      * exists lo, hi. split; [lia|done].
    + intros (lo & hi & Hlo & Hflat & ->).
      destruct (decide (lo = i)) as [->|Hne].
      * left. pose proof (plateau_end_flat _ _ _ Hflat) as He. fold e in He.
        by replace hi with (e - 1) by lia.
      * right. exists lo, hi. split; [|done].
        destruct (le_lt_dec (e + 1) lo) as [|Hjump]; [done|exfalso].
        destruct Hflat as (_ & _ & _ & Hup' & Hflat & _).
        destruct (decide (lo = e)) as [->|].
        -- destruct (decide (e - 1 = i)) as [Hprev|Hprev].
           ++ rewrite Hprev in Hup'. by rewrite (ltb_asym _ _ Hup') in Hdown.
           ++ destruct (H3 (e - 1)) as [_ Heq]; [lia|].
              by rewrite (eqb_ltb_not_ltb _ _ _ Heq Hdown) in Hup'.
        -- destruct (H3 lo) as [_ Heq]; [lia|].
           destruct (decide (lo - 1 = i)) as [Hprev|Hprev].
           ++ rewrite Hprev in Hup'. by rewrite (eqb_not_ltb _ _ Heq) in Hup'.
           ++ destruct (H3 (lo - 1)) as [_ Heq']; [lia|].
              by rewrite (eqb_eqb_not_ltb _ _ _ Heq' Heq) in Hup'.
Qed.

Lemma local_maxima_from_sorted (x : list float) (fuel i : nat) :
  1 <= i ->
  StronglySorted lt (local_maxima_from x i fuel)
  /\ Forall (le i) (local_maxima_from x i fuel).
Proof.
  revert i. induction fuel as [|fuel IH]; intros i Hi; [by split; constructor|].
  cbn [local_maxima_from]. destruct (Nat.ltb_spec i (length x - 1)) as [Hin|Hout];
    [|by split; constructor].
  assert (StronglySorted lt (local_maxima_from x (i + 1) fuel)
          /\ Forall (le i) (local_maxima_from x (i + 1) fuel)) as Hnext.
  { destruct (IH (i + 1)) as [Hs Hall]; [lia|]. split; [done|].
    eapply Forall_impl; [exact Hall|]. intros a Ha. lia. }
  destruct (PrimFloat.ltb (x !!! (i - 1)) (x !!! i)); [|done].
  destruct (plateau_end_spec x i (length x) (i + 1)) as (H1 & H2 & _).
  set (e := plateau_end x i (i + 1) (length x)) in *.
  destruct (PrimFloat.ltb (x !!! e) (x !!! i)); [|done].
  destruct (IH (e + 1)) as [Hs Hall]; [lia|].
  assert (i <= (i + (e - 1)) / 2 /\ (i + (e - 1)) / 2 < e + 1) as [Hm1 Hm2].
  { split.
    - apply Nat.div_le_lower_bound; lia.
    - apply Nat.Div0.div_lt_upper_bound; lia. }
  split.
  - constructor; [done|]. eapply Forall_impl; [exact Hall|]. intros a Ha. lia.
  - constructor; [done|]. eapply Forall_impl; [exact Hall|]. intros a Ha. lia.
Qed.

Lemma tail_length {A} (l : list A) : length (tail l) = length l - 1.
Proof. destruct l; simpl; lia. Qed.

Lemma flat_maximum_tail (amp : list float) (lo hi : nat) :
  1 <= lo -> flat_maximum (tail amp) lo hi <-> flat_maximum amp (S lo) (S hi).
Proof.
  intros Hlo. unfold flat_maximum. rewrite tail_length, !lookup_total_tail.
  replace (S lo - 1) with (S (lo - 1)) by lia.
  replace (S hi + 1) with (S (hi + 1)) by lia.
  split; intros (? & ? & ? & ? & Hflat & ?); repeat split; try lia; try done.
  - intros j Hj. destruct j as [|j]; [lia|].
    rewrite <- lookup_total_tail. apply Hflat. lia.
  - intros j Hj. rewrite lookup_total_tail. apply Hflat. lia.
Qed.

Lemma find_peaks_tail (amp : list float) (bar : float) (b : nat) :
  b ∈ S <$> find_peaks (tail amp) bar <-> spectral_peak amp bar b.
Proof.
  unfold find_peaks, local_maxima_1d, spectral_peak.
  rewrite list_elem_of_fmap. split.
  - intros (m & -> & [Hbar Hm]%list_elem_of_filter).
    apply local_maxima_from_spec in Hm as (lo & hi & Hlo & Hflat & ->); [|lia..].
    exists (S lo), (S hi). split; [lia|]. split; [by apply flat_maximum_tail|].
    replace (S lo + S hi) with (lo + hi + 1 * 2) by lia.
    rewrite Nat.div_add by done. rewrite lookup_total_tail in Hbar.
    split; [lia|done].
  - intros (lo & hi & Hlo & Hflat & -> & Hbar).
    destruct lo as [|lo]; [lia|]. destruct hi as [|hi]; [destruct Hflat; lia|].
    replace (S lo + S hi) with (lo + hi + 1 * 2) in * by lia.
    rewrite Nat.div_add in * by done.
    exists ((lo + hi) / 2). split; [lia|].
    apply list_elem_of_filter. split.
    + rewrite lookup_total_tail. by replace (S _) with ((lo + hi) / 2 + 1) by lia.
    + apply local_maxima_from_spec; [lia..|].
      exists lo, hi. split; [lia|]. split; [|done].
      apply flat_maximum_tail; [lia|done].
Qed.

Lemma find_peaks_sorted (x : list float) (bar : float) :
  StronglySorted lt (find_peaks x bar).
Proof.
  apply filter_sorted. by apply local_maxima_from_sorted.
Qed.

(** [max] returns an element of the list which no element exceeds. *)
Lemma py_max_spec (l : list float) (top : float) :
  py_max l = Ok top ->
  top ∈ l /\ forall a, a ∈ l -> float_gt a top = false.
Proof.
  destruct l as [|x xs]; [done|]. simpl. intros [= <-].
  assert (forall xs m,
    foldl (fun m y => if float_gt y m then y else m) m xs ∈ m :: xs
    /\ forall a, (PrimFloat.ltb m a = false \/ a ∈ xs) ->
         PrimFloat.ltb (foldl (fun m y => if float_gt y m then y else m) m xs) a
         = false) as Hfold.
  { clear. induction xs as [|y ys IH]; intros m.
    - simpl. split; [by left|]. intros a [Ha|Ha%elem_of_nil]; done.
    - simpl. destruct (IH (if float_gt y m then y else m)) as [Hin Hmax].
      split.
      + apply elem_of_cons in Hin as [->|Hin].
        * destruct (float_gt y m); [right; left|left].
        * by right; right.
      + intros a Ha. apply Hmax.
        unfold float_gt in *.
        destruct (PrimFloat.ltb m y) eqn:Hmy.
        * destruct Ha as [Ha|[->|Ha]%elem_of_cons]; [|left; apply ltb_irrefl|by right].
          left. destruct (PrimFloat.ltb y a) eqn:Hya; [|done].
          by rewrite (ltb_trans _ _ _ Hmy Hya) in Ha.
        * destruct Ha as [Ha|[->|Ha]%elem_of_cons]; [by left|by left|by right]. }
  destruct (Hfold xs x) as [Hin Hmax]. split; [done|].
  intros a Ha. unfold float_gt. apply Hmax.
  apply elem_of_cons in Ha as [->|Ha]; [left; apply ltb_irrefl|by right].
Qed.

Lemma mapM_Forall2 {A B} (f : A -> result B) (l : list A) (k : list B) :
  mapM f l = Ok k -> Forall2 (fun a b => f a = Ok b) l k.
Proof.
  revert k. induction l as [|a l IH]; intros k.
  - intros [= <-]. constructor.
  - csimpl. intros (b & Hb & (k' & Hk & [= <-])%bind_Ok)%bind_Ok.
    constructor; [done|]. by apply IH.
Qed.

(** The entry of [fft_peaks] for bin [b]. *)
Definition peak_entry (fft_freq fft_amp : list float) (b : nat) : pyval :=
  VDict (<["amp" := VFloat (fft_amp !!! b)]> (<["freq" := VFloat (fft_freq !!! b)]> ∅)).

Lemma fft_peaks_Ok (fft_freq fft_amp : list float) (peaks : list pyval) :
  fft_peaks fft_freq fft_amp = Ok peaks ->
  exists top,
    py_max fft_amp = Ok top
    /\ Forall (fun b => b < length fft_freq)
              (S <$> find_peaks (tail fft_amp) (top * 0.1)%float)
    /\ peaks = peak_entry fft_freq fft_amp
                 <$> (S <$> find_peaks (tail fft_amp) (top * 0.1)%float).
Proof.
  unfold fft_peaks. intros (top & Htop & Hpeaks)%bind_Ok.
  exists top. split; [done|].
  apply mapM_Forall2 in Hpeaks.
  induction Hpeaks as [|i p l k Hp _ [IH1 IH2]]; [by split; [constructor|]|].
  apply bind_Ok in Hp as (f & Hf & (a & Ha & [= <-])%bind_Ok).
  unfold py_index in *. replace (i + 1) with (S i) in * by lia.
  destruct (fft_freq !! S i) as [f'|] eqn:Hfreq; [|done].
  destruct (fft_amp !! S i) as [a'|] eqn:Hamp; [|done].
  split; csimpl.
  - constructor; [|done]. by eapply lookup_lt_Some.
  - f_equal; [|done]. unfold peak_entry.
    rewrite !list_lookup_total_alt, Hfreq, Hamp. by simplify_eq.
Qed.

(** The spectrum written by lines 157-167 reaches the frame unchanged. *)
Lemma process_data_frame_spectrum self raw_data self' frame :
  process_data self raw_data = (self', Ok frame) ->
  exists p2 p3, add_spectrum self' p2 = Ok p3
    /\ forall k, k ∈ spectrum_keys -> frame !! k = p3 !! k.
Proof.
  intros (c & m & p1 & p2 & p3 & Hc & Hself & Hm & H1 & H2 & H3 & H4)%process_data_frame.
  exists p2, p3. split; [done|].
  apply add_peaks_spec in H4 as (E4 & _).
  intros k Hk. apply E4.
  unfold spectrum_keys in Hk. rewrite !elem_of_cons, elem_of_nil in Hk.
  destruct_or! Hk; try done; subst; apply (bool_decide_unpack _); vm_compute; exact I.
Qed.

Ltac key_in := apply (bool_decide_unpack _); vm_compute; exact I.

(** X14: the peaks of the spectrum.  For a frame computed over a full FFT
    window whose spectrum has more than five bins, [fft_peaks] lists, by
    increasing frequency, exactly the bins which are the middle (rounded
    down) of a flat maximum of [fft_amp] starting after bin 1 and ending
    before the last bin, and whose amplitude is at least one tenth of
    [max(fft_amp)]; this maximum is taken over all the bins, bin 0 (DC)
    included, and is an entry of [fft_amp] which no entry exceeds.  Each
    peak carries the frequency and the amplitude of its own bin.  (The
    search [scipy.signal.find_peaks(fft_amp[1:], height=...)] is modelled by
    [find_peaks].) *)
Theorem spectral_peaks_are_flat_maxima (self : MPU6050Reader)
    (raw_data : raw_sample) (self' : MPU6050Reader) (frame : gmap string pyval) :
  process_data self raw_data = (self', Ok frame) ->
  fft_window self' <= length (ax_buffer self') ->
  exists fft_freq fft_amp,
    compute_fft self' (ax_buffer self') = Ok (fft_freq, fft_amp)
    /\ frame !! "fft_freq" = Some (float_list fft_freq)
    /\ frame !! "fft_amp" = Some (float_list fft_amp)
    /\ (5 < length fft_amp ->
        exists top bins,
          py_max fft_amp = Ok top
          /\ top ∈ fft_amp
          /\ (forall a, a ∈ fft_amp -> float_gt a top = false)
          /\ (forall b, b ∈ bins <-> spectral_peak fft_amp (top * 0.1)%float b)
          /\ StronglySorted lt bins
          /\ (forall b, b ∈ bins ->
                2 <= b /\ b + 1 < length fft_amp /\ b < length fft_freq)
          /\ frame !! "fft_peaks"
             = Some (VList (peak_entry fft_freq fft_amp <$> bins))).
Proof.
  intros (p2 & p3 & H3 & Hframe)%process_data_frame_spectrum Hn.
  apply add_spectrum_spec in H3 as (_ & Hfull & _).
  destruct (Hfull Hn) as (fft_freq & fft_amp & Hfft & Hfreq & Hamp & Hpeaks & _).
  exists fft_freq, fft_amp. split; [done|].
  split; [rewrite Hframe; [done|key_in]|].
  split; [rewrite Hframe; [done|key_in]|].
  intros Hbins. destruct (Hpeaks Hbins) as (peaks & Hok & Hfield).
  apply fft_peaks_Ok in Hok as (top & Htop & Hrange & ->).
  destruct (py_max_spec _ _ Htop) as [Hin Hmax].
  exists top, (S <$> find_peaks (tail fft_amp) (top * 0.1)%float).
  split; [done|]. split; [done|]. split; [done|].
  split; [intros b; apply find_peaks_tail|].
  split.
  { apply (StronglySorted_fmap S lt lt); [intros; lia|]. apply find_peaks_sorted. }
  split.
  - intros b Hb. rewrite Forall_forall in Hrange. split_and!; [| |by apply Hrange].
    + apply find_peaks_tail in Hb as (lo & hi & Hlo & (_ & Hle & _) & -> & _).
      apply Nat.div_le_lower_bound; lia.
    + apply find_peaks_tail in Hb as (lo & hi & Hlo & (_ & Hle & Hhi & _) & -> & _).
      assert ((lo + hi) / 2 <= hi); [|lia].
      apply Nat.Div0.div_le_upper_bound; lia.
  - rewrite Hframe; [done|key_in].
Qed.

End Spectrum.

Section SpectrumClaim.
Context `{Platform}.

Lemma mapM_is_Ok {A B} (f : A -> result B) (l : list A) :
  Forall (fun a => exists b, f a = Ok b) l -> exists k, mapM f l = Ok k.
Proof.
  induction 1 as [|a l [b Hb] _ [k Hk]]; [by exists []|].
  exists (b :: k). csimpl. rewrite Hb. simpl.
  change (mapM f l ≫= (fun bs => mret (b :: bs)) = Ok (b :: k)).
  by rewrite Hk.
Qed.

(** C3: the peaks of a spectrum (lines 162-167).  The extraction returns
    whenever [fft_freq] is at least as long as a non-empty [fft_amp], and
    what it returns is this: the bar is one tenth of [max(fft_amp)], a
    maximum taken over all the bins, bin 0 (DC) included; the bins reported
    are exactly those which are the middle (rounded down) of a flat maximum
    of [fft_amp] starting after bin 1 and ending before the last bin, and
    whose amplitude is at least the bar; they come by increasing frequency,
    each with the frequency and the amplitude of its own bin. *)
Theorem spectral_peak_extraction (fft_freq fft_amp : list float) :
  (fft_amp <> [] -> length fft_amp <= length fft_freq ->
   exists peaks, fft_peaks fft_freq fft_amp = Ok peaks)
  /\ forall peaks, fft_peaks fft_freq fft_amp = Ok peaks ->
     exists top bins,
       py_max fft_amp = Ok top
       /\ top ∈ fft_amp
       /\ (forall a, a ∈ fft_amp -> float_gt a top = false)
       /\ (forall b, b ∈ bins <-> spectral_peak fft_amp (top * 0.1)%float b)
       /\ StronglySorted lt bins
       /\ (forall b, b ∈ bins ->
             2 <= b /\ b + 1 < length fft_amp
             /\ fft_freq !! b = Some (fft_freq !!! b)
             /\ fft_amp !! b = Some (fft_amp !!! b))
       /\ peaks = peak_entry fft_freq fft_amp <$> bins.
Proof.
  assert (forall bar b, spectral_peak fft_amp bar b ->
                        2 <= b /\ b + 1 < length fft_amp) as Hrange.
  { intros bar b (lo & hi & Hlo & (_ & Hle & Hhi & _) & -> & _). split.
    - apply Nat.div_le_lower_bound; lia.
    - assert ((lo + hi) / 2 <= hi); [|lia].
      apply Nat.Div0.div_le_upper_bound; lia. }
  split.
  - intros Hne Hlen. unfold fft_peaks.
    destruct fft_amp as [|x xs] eqn:Hamp; [done|]. rewrite <- Hamp in *.
    assert (exists top, py_max fft_amp = Ok top) as [top Htop]
      by (rewrite Hamp; by eexists).
    rewrite Htop. simpl. apply mapM_is_Ok. apply Forall_forall. intros i Hi.
    assert (spectral_peak fft_amp (top * 0.1)%float (S i)) as Hpeak.
    { apply find_peaks_tail. by apply list_elem_of_fmap_2. }
    apply Hrange in Hpeak as [_ Hlt].
    unfold py_index. replace (i + 1) with (S i) by lia.
    destruct (lookup_lt_is_Some_2 fft_freq (S i)) as [f ->]; [lia|].
    destruct (lookup_lt_is_Some_2 fft_amp (S i)) as [a ->]; [lia|].
    by eexists.
  - intros peaks Hok.
    apply fft_peaks_Ok in Hok as (top & Htop & Hfreq & ->).
    destruct (py_max_spec _ _ Htop) as [Hin Hmax].
    exists top, (S <$> find_peaks (tail fft_amp) (top * 0.1)%float).
    split_and!; try done.
    + intros b. apply find_peaks_tail.
    + apply (StronglySorted_fmap S lt lt); [intros; lia|]. apply find_peaks_sorted.
    + intros b Hb. rewrite Forall_forall in Hfreq.
      pose proof (Hfreq _ Hb) as Hf.
      apply find_peaks_tail, Hrange in Hb as [Hb1 Hb2].
      split_and!; try done.
      * by apply list_lookup_lookup_total_lt.
      * apply list_lookup_lookup_total_lt. lia.
Qed.

End SpectrumClaim.

(** A spectrum whose bin 0 dwarfs the others. *)
Definition dc_heavy_spectrum : list float := [100; 1; 5; 1; 1; 1]%float.

(** C3, the counterexample: in [dc_heavy_spectrum] bin 2 is a local maximum
    of the bins searched, above one tenth (and even above the whole) of
    their maximum, and yet no peak is reported, the bar being one tenth of
    the amplitude of bin 0. *)
Lemma dc_bin_sets_the_bar :
  5 < length dc_heavy_spectrum
  /\ py_max (tail dc_heavy_spectrum) = Ok 5%float
  /\ float_gt (dc_heavy_spectrum !!! 2) (dc_heavy_spectrum !!! 1) = true
  /\ float_gt (dc_heavy_spectrum !!! 2) (dc_heavy_spectrum !!! 3) = true
  /\ float_gt (dc_heavy_spectrum !!! 2) (5 * 0.1)%float = true
  /\ fft_peaks [0; 1; 2; 3; 4; 5]%float dc_heavy_spectrum = Ok [].
Proof. split_and!; [vm_compute; lia | reflexivity..]. Qed.

(** A reader with a short FFT window, whose window holds eleven samples of
    a tone of period four, and the outcome of its next call. *)
Definition humming_reader : MPU6050Reader := {|
  ACCEL_SCALE := 16384; GYRO_SCALE := 131; buffer_size := 256;
  ax_buffer := [1; 0; -1; 0; 1; 0; -1; 0; 1; 0; -1]%float;
  ay_buffer := repeat 0%float 11; az_buffer := repeat 0%float 11;
  timestamps := repeat (VInt 0) 11;
  sampling_rate := 20; fft_window := 12;
|}.

Definition hum : MPU6050Reader * result (gmap string pyval) :=
  process_data humming_reader still_sample.

Lemma spectral_peaks_are_flat_maxima_witness :
  exists fft_freq fft_amp,
    hum = (hum.1, Ok (returned hum))
    /\ compute_fft hum.1 (ax_buffer hum.1) = Ok (fft_freq, fft_amp)
    /\ length fft_amp = 7
    /\ returned hum !! "fft_amp" = Some (float_list fft_amp).
Proof.
  assert (hum = (hum.1, Ok (returned hum))) as Heq
    by exact (eq_refl hum <: hum = (hum.1, Ok (returned hum))).
  assert (fft_window hum.1 <= length (ax_buffer hum.1)) as Hn by (vm_compute; lia).
  destruct (spectral_peaks_are_flat_maxima _ _ _ _ Heq Hn)
    as (fft_freq & fft_amp & Hfft & _ & Hamp & _).
  exists fft_freq, fft_amp.
  split; [exact Heq|]. split; [exact Hfft|]. split; [|exact Hamp].
  revert Hfft. generalize fft_freq, fft_amp. vm_compute.
  intros f a [= _ <-]. reflexivity.
Defined.

(** ** The name of the recording *)

Section FileName.
Context `{Platform}.

(** The characters [/start] lets through in the reading type. *)
Definition allowed (c : ascii) : bool :=
  str_isalnum c || Ascii.eqb c "-" || Ascii.eqb c "_".

Lemma allowed_underscore : allowed "_" = true.
Proof. unfold allowed. simpl. apply orb_true_r. Qed.

(** X16: the reading type is sanitised character by character.  The
    sanitised text has the length of the reading type; at each position it
    holds the character of the reading type when that one is alphanumeric,
    a hyphen or an underscore, and an underscore otherwise; so it is made of
    such characters only, a reading type made of such characters only is
    kept as it is, and sanitising twice changes nothing.  In particular no
    path separator survives, [isalnum] being false of it. *)
Theorem safe_type_keeps_allowed_characters (reading_type : string) :
  String.length (safe_type reading_type) = String.length reading_type
  /\ (forall i c, String.get i reading_type = Some c ->
        String.get i (safe_type reading_type)
        = Some (if allowed c then c else "_"%char))
  /\ Forall (fun c => allowed c = true) (list_ascii_of_string (safe_type reading_type))
  /\ (Forall (fun c => allowed c = true) (list_ascii_of_string reading_type) ->
      safe_type reading_type = reading_type)
  /\ safe_type (safe_type reading_type) = safe_type reading_type
  /\ (str_isalnum "/" = false ->
      Forall (fun c => c <> "/"%char) (list_ascii_of_string (safe_type reading_type))).
Proof.
  assert (forall s, Forall (fun c => allowed c = true) (list_ascii_of_string s) ->
                    safe_type s = s) as Hkeep.
  { induction s as [|c s IH]; [done|]. simpl.
    intros [Hc Hs]%Forall_cons. unfold allowed in Hc. rewrite Hc. f_equal. by apply IH. }
  assert (forall s, Forall (fun c => allowed c = true)
                      (list_ascii_of_string (safe_type s))) as Hall.
  { induction s as [|c s IH]; [constructor|]. simpl. constructor; [|done].
    fold (allowed c). destruct (allowed c) eqn:Hc; [done|apply allowed_underscore]. }
  split_and!.
  - induction reading_type as [|c s IH]; [done|]. simpl. by rewrite IH.
  - induction reading_type as [|c s IH]; intros i c' Hget; [by destruct i|].
    destruct i as [|i]; simpl in *.
    + by injection Hget as ->.
    + by apply IH.
  - apply Hall.
  - apply Hkeep.
  - apply Hkeep, Hall.
  - intros Hslash. eapply Forall_impl; [apply Hall|].
    intros c Hc ->. unfold allowed in Hc. rewrite Hslash in Hc. done.
Qed.

End FileName.

(** ** Flat lines *)

Section FlatLines.
Context `{Platform}.

(** X17: of a flat line, [parse_data] reads the first seven fields and
    nothing else.  Two lines which do not start with a brace and whose
    first seven comma-separated fields are the same decode alike, whatever
    follows the seventh field and whatever the clock of the host shows: no
    eighth field and no time of arrival reaches the sample. *)
Theorem flat_line_is_read_up_to_the_seventh_field (line1 line2 : string)
    (clock1 clock2 : Z) :
  startswith line1 "{" = false -> startswith line2 "{" = false ->
  7 <= length (split "," (strip line1)) ->
  take 7 (split "," (strip line1)) = take 7 (split "," (strip line2)) ->
  parse_data line1 clock1 = parse_data line2 clock2.
Proof.
  intros Hflat1 Hflat2 Hlen Hsame.
  assert (7 <= length (split "," (strip line2))) as Hlen2.
  { apply (f_equal length) in Hsame. rewrite !length_take in Hsame. lia. }
  destruct (seven_parts _ Hlen) as (p0 & p1 & p2 & p3 & p4 & p5 & p6 & rest & Hparts).
  destruct (seven_parts _ Hlen2) as (q0 & q1 & q2 & q3 & q4 & q5 & q6 & rest' & Hparts').
  rewrite (parse_data_flat line1 clock1 _ _ _ _ _ _ _ _ Hflat1 Hparts).
  rewrite (parse_data_flat line2 clock2 _ _ _ _ _ _ _ _ Hflat2 Hparts').
  rewrite Hparts, Hparts' in Hsame. simpl in Hsame. by simplify_eq.
Qed.

End FlatLines.

Lemma flat_line_is_read_up_to_the_seventh_field_witness :
  parse_data "5,1,2,3,4,5,6" 0 = parse_data "5,1,2,3,4,5,6,77,x y" 1700000000000.
Proof.
  apply flat_line_is_read_up_to_the_seventh_field;
    [reflexivity | reflexivity | vm_compute; lia | reflexivity].
Defined.
